(** * Verification of the project aggregate of z4mbrano/checklist

    Shallow embedding of
    - app/domain/entities/project.py            (module [ProjectEntity])
    - app/infrastructure/repositories/sqlalchemy_project_repository.py
                                                (module [Repo])
    - app/services/project_service.py           (module [Service]: listings,
                                                create_project, statistics)
    - app/core/unit_of_work.py                  (module [UoW])

    Dates are day ordinals ([Z]); [date.today()] is an explicit argument.
    A Python method that may raise returns an [outcome] together with the
    (possibly already mutated) object or world, since mutations performed
    before a [raise] are kept. *)

From Stdlib Require Import ZArith List String Ascii Bool Lia.
From Stdlib Require Import Sorting.Permutation Sorting.Sorted.
Import ListNotations.
Open Scope Z_scope.

(** Exceptions raised by the code under study. *)
Inductive exc :=
| InvalidStateTransitionError
| BusinessRuleViolationError
| RuntimeError
| ProjectNotFoundError
| RepositoryError
| InjectedError.   (* a failure raised by caller code inside a [with] block *)

Inductive outcome (A : Type) :=
| Ok (a : A)
| Raise (e : exc).
Arguments Ok {A} a.
Arguments Raise {A} e.

(** The one-character string ["\n"]. *)
Definition newline : string := String (ascii_of_nat 10) EmptyString.

(** Python truthiness of an [Optional[str]]. *)
Definition str_truthy (s : option string) : bool :=
  match s with
  | Some x => negb (String.eqb x EmptyString)
  | None => false
  end.

(** Python truthiness of an [Optional[int]]. *)
Definition int_truthy (z : option Z) : bool :=
  match z with
  | Some x => negb (Z.eqb x 0)
  | None => false
  end.

(* ------------------------------------------------------------------ *)
(** ** The domain entity (app/domain/entities/project.py) *)

Module ProjectEntity.

Inductive ProjectStatus :=
| PLANEJAMENTO | EM_ANDAMENTO | PAUSADO | CONCLUIDO | CANCELADO.

Definition status_eqb (a b : ProjectStatus) : bool :=
  match a, b with
  | PLANEJAMENTO, PLANEJAMENTO | EM_ANDAMENTO, EM_ANDAMENTO
  | PAUSADO, PAUSADO | CONCLUIDO, CONCLUIDO | CANCELADO, CANCELADO => true
  | _, _ => false
  end.

Record Project := mkProject {
  id : option Z;
  name : string;
  description : option string;
  start_date : Z;
  end_date_planned : option Z;
  end_date_actual : option Z;
  status : ProjectStatus;
  client_id : Z;
  responsible_user_id : Z;
  observations : option string;
  estimated_value : option string;
  created_at : option Z;
  updated_at : option Z;
  deleted_at : option Z
}.

(** Field assignments [self.f = v]. *)
Definition set_status (p : Project) (s : ProjectStatus) : Project :=
  {| id := id p; name := name p; description := description p;
     start_date := start_date p; end_date_planned := end_date_planned p;
     end_date_actual := end_date_actual p; status := s;
     client_id := client_id p; responsible_user_id := responsible_user_id p;
     observations := observations p; estimated_value := estimated_value p;
     created_at := created_at p; updated_at := updated_at p;
     deleted_at := deleted_at p |}.

Definition set_end_date_actual (p : Project) (d : option Z) : Project :=
  {| id := id p; name := name p; description := description p;
     start_date := start_date p; end_date_planned := end_date_planned p;
     end_date_actual := d; status := status p;
     client_id := client_id p; responsible_user_id := responsible_user_id p;
     observations := observations p; estimated_value := estimated_value p;
     created_at := created_at p; updated_at := updated_at p;
     deleted_at := deleted_at p |}.

Definition set_end_date_planned (p : Project) (d : option Z) : Project :=
  {| id := id p; name := name p; description := description p;
     start_date := start_date p; end_date_planned := d;
     end_date_actual := end_date_actual p; status := status p;
     client_id := client_id p; responsible_user_id := responsible_user_id p;
     observations := observations p; estimated_value := estimated_value p;
     created_at := created_at p; updated_at := updated_at p;
     deleted_at := deleted_at p |}.

Definition set_name (p : Project) (n : string) : Project :=
  {| id := id p; name := n; description := description p;
     start_date := start_date p; end_date_planned := end_date_planned p;
     end_date_actual := end_date_actual p; status := status p;
     client_id := client_id p; responsible_user_id := responsible_user_id p;
     observations := observations p; estimated_value := estimated_value p;
     created_at := created_at p; updated_at := updated_at p;
     deleted_at := deleted_at p |}.

Definition set_description (p : Project) (d : option string) : Project :=
  {| id := id p; name := name p; description := d;
     start_date := start_date p; end_date_planned := end_date_planned p;
     end_date_actual := end_date_actual p; status := status p;
     client_id := client_id p; responsible_user_id := responsible_user_id p;
     observations := observations p; estimated_value := estimated_value p;
     created_at := created_at p; updated_at := updated_at p;
     deleted_at := deleted_at p |}.

Definition set_observations (p : Project) (o : option string) : Project :=
  {| id := id p; name := name p; description := description p;
     start_date := start_date p; end_date_planned := end_date_planned p;
     end_date_actual := end_date_actual p; status := status p;
     client_id := client_id p; responsible_user_id := responsible_user_id p;
     observations := o; estimated_value := estimated_value p;
     created_at := created_at p; updated_at := updated_at p;
     deleted_at := deleted_at p |}.

Definition set_estimated_value (p : Project) (v : option string) : Project :=
  {| id := id p; name := name p; description := description p;
     start_date := start_date p; end_date_planned := end_date_planned p;
     end_date_actual := end_date_actual p; status := status p;
     client_id := client_id p; responsible_user_id := responsible_user_id p;
     observations := observations p; estimated_value := v;
     created_at := created_at p; updated_at := updated_at p;
     deleted_at := deleted_at p |}.

(** A method call: its outcome and the object afterwards. *)
Definition method := (outcome unit * Project)%type.

(** [_validate_dates]: [if self.end_date_planned and
    self.end_date_planned < self.start_date: raise ...]
    (a [date] is always truthy). *)
Definition _validate_dates (p : Project) : outcome unit :=
  match end_date_planned p with
  | Some e => if e <? start_date p then Raise BusinessRuleViolationError else Ok tt
  | None => Ok tt
  end.

(** Dataclass construction followed by [__post_init__]. *)
Definition construct (p : Project) : outcome Project :=
  match _validate_dates p with
  | Ok _ => Ok p
  | Raise e => Raise e
  end.

Definition start (p : Project) : method :=
  match status p with
  | PLANEJAMENTO | PAUSADO => (Ok tt, set_status p EM_ANDAMENTO)
  | _ => (Raise InvalidStateTransitionError, p)
  end.

Definition pause (p : Project) : method :=
  if negb (status_eqb (status p) EM_ANDAMENTO)
  then (Raise InvalidStateTransitionError, p)
  else (Ok tt, set_status p PAUSADO).

(** [complete(completion_date)]: [end_date_actual = completion_date or
    date.today()]; [today] is the value of [date.today()]. *)
Definition complete (p : Project) (completion_date : option Z) (today : Z) : method :=
  if negb (status_eqb (status p) EM_ANDAMENTO)
  then (Raise InvalidStateTransitionError, p)
  else
    let p1 := set_status p CONCLUIDO in
    let d := match completion_date with Some d => d | None => today end in
    (Ok tt, set_end_date_actual p1 (Some d)).

(** [cancel(reason)]. *)
Definition cancel (p : Project) (reason : option string) : method :=
  if status_eqb (status p) CONCLUIDO
  then (Raise InvalidStateTransitionError, p)
  else
    let p1 := set_status p CANCELADO in
    if str_truthy reason
    then
      let r := match reason with Some r => r | None => EmptyString end in
      let old := match observations p1 with Some o => o | None => EmptyString end in
      (Ok tt, set_observations p1
                (Some ("[CANCELADO] " ++ r ++ newline ++ old)%string))
    else (Ok tt, p1).

Definition is_modifiable (p : Project) : bool :=
  match status p with
  | CONCLUIDO | CANCELADO => false
  | _ => true
  end.

(** [update_details]: the planned end date is assigned before it is
    re-validated, so a rejected date stays on the object. *)
Definition update_details (p : Project) (name' description' : option string)
    (end_date_planned' : option Z) (observations' estimated_value' : option string)
    : method :=
  if negb (is_modifiable p) then (Raise BusinessRuleViolationError, p) else
  let p1 := match name' with Some n => set_name p n | None => p end in
  let p2 := match description' with Some d => set_description p1 (Some d) | None => p1 end in
  match end_date_planned' with
  | Some e =>
      let p3 := set_end_date_planned p2 (Some e) in
      match _validate_dates p3 with
      | Raise ex => (Raise ex, p3)
      | Ok _ =>
          let p4 := match observations' with Some o => set_observations p3 (Some o) | None => p3 end in
          let p5 := match estimated_value' with Some v => set_estimated_value p4 (Some v) | None => p4 end in
          (Ok tt, p5)
      end
  | None =>
      let p4 := match observations' with Some o => set_observations p2 (Some o) | None => p2 end in
      let p5 := match estimated_value' with Some v => set_estimated_value p4 (Some v) | None => p4 end in
      (Ok tt, p5)
  end.

(** Query properties. *)
Definition is_active (p : Project) : bool :=
  status_eqb (status p) EM_ANDAMENTO &&
  match deleted_at p with None => true | Some _ => false end.

Definition is_completed (p : Project) : bool := status_eqb (status p) CONCLUIDO.

Definition is_cancelled (p : Project) : bool := status_eqb (status p) CANCELADO.

(** [duration_days]: [None] when [end_date_actual] is falsy (a [date] is
    always truthy), else [(end_date_actual - start_date).days]. *)
Definition duration_days (p : Project) : option Z :=
  match end_date_actual p with
  | None => None
  | Some d => Some (d - start_date p)
  end.

(** [is_overdue]; [today] is the value of [date.today()]. *)
Definition is_overdue (p : Project) (today : Z) : bool :=
  match end_date_planned p with
  | None => false
  | Some e => if negb (is_active p) then false else e <? today
  end.

(** The right operand of [==]: a [Project] or any other object. *)
Inductive pyobj :=
| PyProject (q : Project)
| PyOther.

(** [__eq__]: [isinstance(other, Project) and self.id is not None and
    self.id == other.id] ([int == None] is [False]). *)
Definition __eq__ (self : Project) (other : pyobj) : bool :=
  match other with
  | PyOther => false
  | PyProject q =>
      match id self, id q with
      | Some i, Some j => Z.eqb i j
      | _, _ => false
      end
  end.

End ProjectEntity.

(* ------------------------------------------------------------------ *)
(** ** Relational schema (app/models) *)

Module Schema.
Import ProjectEntity.

(** Table [projetos] (app/models/project.py). *)
Record ProjectRow := mkRow {
  p_id : Z;
  nome : string;
  descricao : option string;
  data_inicio : Z;
  data_fim_prevista : option Z;
  data_fim_real : option Z;
  p_status : ProjectStatus;
  cliente_id : Z;
  responsavel_id : Z;
  observacoes : option string;
  valor_estimado : option string;
  p_created_at : option Z;
  p_updated_at : option Z;
  p_deleted_at : option Z
}.

(** Association table [project_contributors (project_id, user_id)]. *)
Record ContributorRow := mkContributor { pc_project_id : Z; pc_user_id : Z }.
(** [checkins (id, projeto_id)], [anexos (id, checkin_id)],
    [tarefas_executadas (id, checkin_id)], [sprints (id, project_id)],
    [sprint_tasks (id, sprint_id)], [logs_auditoria (id, tabela, registro_id)]:
    the key and foreign-key columns. *)
Record CheckinRow := mkCheckin { ck_id : Z; ck_projeto_id : Z }.
Record AnexoRow := mkAnexo { an_id : Z; an_checkin_id : Z }.
Record TarefaExecutadaRow := mkTarefaExecutada { te_id : Z; te_checkin_id : Z }.
Record SprintRow := mkSprint { sp_id : Z; sp_project_id : Z }.
Record SprintTaskRow := mkSprintTask { st_id : Z; st_sprint_id : Z }.
Record AuditRow := mkAudit { la_id : Z; la_tabela : string; la_registro_id : Z }.

Record DB := mkDB {
  projetos : list ProjectRow;
  project_contributors : list ContributorRow;
  checkins : list CheckinRow;
  anexos : list AnexoRow;
  tarefas_executadas : list TarefaExecutadaRow;
  sprints : list SprintRow;
  sprint_tasks : list SprintTaskRow;
  logs_auditoria : list AuditRow
}.

(** Foreign-key integrity of the schema (every [ForeignKey] column of the
    tables above points at an existing row). *)
Definition fk_ok (db : DB) : Prop :=
  (forall c, In c (project_contributors db) ->
     exists p, In p (projetos db) /\ p_id p = pc_project_id c) /\
  (forall c, In c (checkins db) ->
     exists p, In p (projetos db) /\ p_id p = ck_projeto_id c) /\
  (forall a, In a (anexos db) ->
     exists c, In c (checkins db) /\ ck_id c = an_checkin_id a) /\
  (forall t, In t (tarefas_executadas db) ->
     exists c, In c (checkins db) /\ ck_id c = te_checkin_id t) /\
  (forall s, In s (sprints db) ->
     exists p, In p (projetos db) /\ p_id p = sp_project_id s) /\
  (forall t, In t (sprint_tasks db) ->
     exists s, In s (sprints db) /\ sp_id s = st_sprint_id t).

End Schema.

(* ------------------------------------------------------------------ *)
(** ** SQLAlchemyProjectRepository *)

Module Repo.
Import ProjectEntity Schema.

(** [_to_domain]. *)
Definition _to_domain (r : ProjectRow) : Project :=
  {| id := Some (p_id r); name := nome r; description := descricao r;
     start_date := data_inicio r; end_date_planned := data_fim_prevista r;
     end_date_actual := data_fim_real r; status := p_status r;
     client_id := cliente_id r; responsible_user_id := responsavel_id r;
     observations := observacoes r; estimated_value := valor_estimado r;
     created_at := p_created_at r; updated_at := p_updated_at r;
     deleted_at := p_deleted_at r |}.

(** [_to_orm] for a new record: [id] is generated by the database and
    [created_at] comes from [server_default=func.now()]. *)
Definition _to_orm (p : Project) (new_id now : Z) : ProjectRow :=
  {| p_id := new_id; nome := name p; descricao := description p;
     data_inicio := start_date p; data_fim_prevista := end_date_planned p;
     data_fim_real := end_date_actual p; p_status := status p;
     cliente_id := client_id p; responsavel_id := responsible_user_id p;
     observacoes := observations p; valor_estimado := estimated_value p;
     p_created_at := Some now; p_updated_at := None; p_deleted_at := None |}.

(** [_update_orm]: scalar fields copied, [updated_at = func.now()]. *)
Definition _update_orm (r : ProjectRow) (p : Project) (now : Z) : ProjectRow :=
  {| p_id := p_id r; nome := name p; descricao := description p;
     data_inicio := start_date p; data_fim_prevista := end_date_planned p;
     data_fim_real := end_date_actual p; p_status := status p;
     cliente_id := client_id p; responsavel_id := responsible_user_id p;
     observacoes := observations p; valor_estimado := estimated_value p;
     p_created_at := p_created_at r; p_updated_at := Some now;
     p_deleted_at := p_deleted_at r |}.

(** [ORMProject.deleted_at.is_(None)]. *)
Definition live (r : ProjectRow) : bool :=
  match p_deleted_at r with None => true | Some _ => false end.

(** [if status: query.filter(status == ...)]: a [ProjectStatus] member is
    a non-empty [str], hence always truthy. *)
Definition status_filter (st : option ProjectStatus) (r : ProjectRow) : bool :=
  match st with
  | Some s => status_eqb (p_status r) s
  | None => true
  end.

(** [if client_id: query.filter(cliente_id == client_id)]. *)
Definition client_filter (client : option Z) (r : ProjectRow) : bool :=
  if int_truthy client
  then match client with Some c => Z.eqb (cliente_id r) c | None => true end
  else true.

(** [if responsible_id: query.filter(or_(responsavel_id == rid,
    contributors.any(id=rid)))]. *)
Definition responsible_filter (db : DB) (resp : option Z) (r : ProjectRow) : bool :=
  if int_truthy resp
  then match resp with
       | Some u =>
           Z.eqb (responsavel_id r) u ||
           existsb (fun c => Z.eqb (pc_project_id c) (p_id r) && Z.eqb (pc_user_id c) u)
                   (project_contributors db)
       | None => true
       end
  else true.

(** [get_all]: no [ORDER BY], so rows come in table order;
    [query.offset(skip).limit(limit)]. *)
Definition get_all (db : DB) (skip limit : nat) (st : option ProjectStatus)
    (client resp : option Z) : list Project :=
  let q0 := filter live (projetos db) in
  let q1 := filter (status_filter st) q0 in
  let q2 := filter (client_filter client) q1 in
  let q3 := filter (responsible_filter db resp) q2 in
  map _to_domain (firstn limit (skipn skip q3)).

(** [ORDER BY id] (ids are the primary key). *)
Fixpoint insert_by_id (r : ProjectRow) (l : list ProjectRow) : list ProjectRow :=
  match l with
  | [] => [r]
  | x :: t => if p_id r <=? p_id x then r :: l else x :: insert_by_id r t
  end.

Fixpoint order_by_id (l : list ProjectRow) : list ProjectRow :=
  match l with
  | [] => []
  | x :: t => insert_by_id x (order_by_id t)
  end.

(** [if cursor is not None: query.filter(ORMProject.id > cursor)]. *)
Definition cursor_filter (cursor : option Z) (r : ProjectRow) : bool :=
  match cursor with
  | Some c => c <? p_id r
  | None => true
  end.

(** [get_with_cursor]: fetch [limit + 1] rows ordered by id; if more
    than [limit] came back, trim to [limit] and return the id of the last
    kept row ([None] when the trimmed page is empty). *)
Definition get_with_cursor (db : DB) (cursor : option Z) (limit : nat)
    (st : option ProjectStatus) (client : option Z)
    : list Project * option Z :=
  let q0 := filter live (projetos db) in
  let q1 := filter (cursor_filter cursor) q0 in
  let q2 := filter (status_filter st) q1 in
  let q3 := filter (client_filter client) q2 in
  let orm_projects := firstn (limit + 1) (order_by_id q3) in
  if Nat.ltb limit (List.length orm_projects) then
    let kept := firstn limit orm_projects in
    let next_cursor := match rev kept with
                       | last :: _ => Some (p_id last)
                       | [] => None
                       end in
    (map _to_domain kept, next_cursor)
  else (map _to_domain orm_projects, None).

(** A caller following [next_cursor] until it is [None]; [fuel] bounds
    the number of calls. *)
Fixpoint follow_cursor (fuel : nat) (db : DB) (cursor : option Z) (limit : nat)
    (st : option ProjectStatus) (client : option Z) : list Project :=
  match fuel with
  | O => []
  | S f =>
      let (page, next) := get_with_cursor db cursor limit st client in
      match next with
      | None => page
      | Some c => page ++ follow_cursor f db (Some c) limit st client
      end
  end.

(** The eight statements of [delete], in the order they are executed. *)
Definition checkin_ids_of (db : DB) (pid : Z) : list Z :=
  map ck_id (filter (fun c => Z.eqb (ck_projeto_id c) pid) (checkins db)).

Definition sprint_ids_of (db : DB) (pid : Z) : list Z :=
  map sp_id (filter (fun s => Z.eqb (sp_project_id s) pid) (sprints db)).

Definition Z_in (z : Z) (l : list Z) : bool := existsb (Z.eqb z) l.

(** 1. [DELETE FROM project_contributors WHERE project_id = :pid] *)
Definition del_contributors (pid : Z) (db : DB) : DB :=
  {| projetos := projetos db;
     project_contributors :=
       filter (fun c => negb (Z.eqb (pc_project_id c) pid)) (project_contributors db);
     checkins := checkins db; anexos := anexos db;
     tarefas_executadas := tarefas_executadas db; sprints := sprints db;
     sprint_tasks := sprint_tasks db; logs_auditoria := logs_auditoria db |}.

(** 2. [DELETE FROM anexos WHERE checkin_id IN (SELECT id FROM checkins
    WHERE projeto_id = :pid)] *)
Definition del_anexos (pid : Z) (db : DB) : DB :=
  {| projetos := projetos db; project_contributors := project_contributors db;
     checkins := checkins db;
     anexos := filter (fun a => negb (Z_in (an_checkin_id a) (checkin_ids_of db pid)))
                      (anexos db);
     tarefas_executadas := tarefas_executadas db; sprints := sprints db;
     sprint_tasks := sprint_tasks db; logs_auditoria := logs_auditoria db |}.

(** 3. [DELETE FROM tarefas_executadas WHERE checkin_id IN (...)] *)
Definition del_tarefas_executadas (pid : Z) (db : DB) : DB :=
  {| projetos := projetos db; project_contributors := project_contributors db;
     checkins := checkins db; anexos := anexos db;
     tarefas_executadas :=
       filter (fun t => negb (Z_in (te_checkin_id t) (checkin_ids_of db pid)))
              (tarefas_executadas db);
     sprints := sprints db;
     sprint_tasks := sprint_tasks db; logs_auditoria := logs_auditoria db |}.

(** 4. [DELETE FROM checkins WHERE projeto_id = :pid] *)
Definition del_checkins (pid : Z) (db : DB) : DB :=
  {| projetos := projetos db; project_contributors := project_contributors db;
     checkins := filter (fun c => negb (Z.eqb (ck_projeto_id c) pid)) (checkins db);
     anexos := anexos db;
     tarefas_executadas := tarefas_executadas db; sprints := sprints db;
     sprint_tasks := sprint_tasks db; logs_auditoria := logs_auditoria db |}.

(** 5. [DELETE FROM sprint_tasks WHERE sprint_id IN (SELECT id FROM
    sprints WHERE project_id = :pid)] *)
Definition del_sprint_tasks (pid : Z) (db : DB) : DB :=
  {| projetos := projetos db; project_contributors := project_contributors db;
     checkins := checkins db; anexos := anexos db;
     tarefas_executadas := tarefas_executadas db; sprints := sprints db;
     sprint_tasks := filter (fun t => negb (Z_in (st_sprint_id t) (sprint_ids_of db pid)))
                            (sprint_tasks db);
     logs_auditoria := logs_auditoria db |}.

(** 6. [DELETE FROM sprints WHERE project_id = :pid] *)
Definition del_sprints (pid : Z) (db : DB) : DB :=
  {| projetos := projetos db; project_contributors := project_contributors db;
     checkins := checkins db; anexos := anexos db;
     tarefas_executadas := tarefas_executadas db;
     sprints := filter (fun s => negb (Z.eqb (sp_project_id s) pid)) (sprints db);
     sprint_tasks := sprint_tasks db; logs_auditoria := logs_auditoria db |}.

(** 7. [DELETE FROM logs_auditoria WHERE tabela = 'projetos' AND
    registro_id = :pid] *)
Definition del_audit_logs (pid : Z) (db : DB) : DB :=
  {| projetos := projetos db; project_contributors := project_contributors db;
     checkins := checkins db; anexos := anexos db;
     tarefas_executadas := tarefas_executadas db; sprints := sprints db;
     sprint_tasks := sprint_tasks db;
     logs_auditoria :=
       filter (fun l => negb (String.eqb (la_tabela l) "projetos" && Z.eqb (la_registro_id l) pid))
              (logs_auditoria db) |}.

(** 8. [DELETE FROM projetos WHERE id = :pid] *)
Definition del_project (pid : Z) (db : DB) : DB :=
  {| projetos := filter (fun r => negb (Z.eqb (p_id r) pid)) (projetos db);
     project_contributors := project_contributors db;
     checkins := checkins db; anexos := anexos db;
     tarefas_executadas := tarefas_executadas db; sprints := sprints db;
     sprint_tasks := sprint_tasks db; logs_auditoria := logs_auditoria db |}.

(** [result.rowcount] of statement 8. *)
Definition project_rowcount (pid : Z) (db : DB) : nat :=
  List.length (filter (fun r => Z.eqb (p_id r) pid) (projetos db)).

(** Statements 1-7 (the dependents), in execution order. *)
Definition dependent_statements (pid : Z) : list (DB -> DB) :=
  [del_contributors pid; del_anexos pid; del_tarefas_executadas pid;
   del_checkins pid; del_sprint_tasks pid; del_sprints pid; del_audit_logs pid].

Definition run_statements (l : list (DB -> DB)) (db : DB) : DB :=
  fold_left (fun d f => f d) l db.

(** The states the transaction goes through, one after each statement. *)
Fixpoint trace (l : list (DB -> DB)) (db : DB) : list DB :=
  match l with
  | [] => []
  | f :: t => f db :: trace t (f db)
  end.

(** [get_by_id]: [filter_by(id=project_id, deleted_at=None).first()]. *)
Definition get_by_id (db : DB) (project_id : Z) : option Project :=
  match find (fun r => Z.eqb (p_id r) project_id && live r) (projetos db) with
  | Some r => Some (_to_domain r)
  | None => None
  end.

(** [exists] ([exists] is a keyword of Rocq). *)
Definition exists_ (db : DB) (project_id : Z) : bool :=
  match get_by_id db project_id with Some _ => true | None => false end.

(** [get_by_client]: [get_all(client_id=client_id, limit=1000)]. *)
Definition get_by_client (db : DB) (client : Z) : list Project :=
  get_all db 0 1000 None (Some client) None.

(** [get_active_projects]: [get_all(status=EM_ANDAMENTO, limit=1000)]. *)
Definition get_active_projects (db : DB) : list Project :=
  get_all db 0 1000 (Some EM_ANDAMENTO) None None.

(** The [WHERE] clause of [get_overdue_projects]: [status = EM_ANDAMENTO],
    [data_fim_prevista < today] (false on [NULL]), [deleted_at IS NULL]. *)
Definition overdue_filter (today : Z) (r : ProjectRow) : bool :=
  status_eqb (p_status r) EM_ANDAMENTO &&
  match data_fim_prevista r with Some e => e <? today | None => false end &&
  live r.

(** [get_overdue_projects] (no limit); [today] is [date.today()]. *)
Definition get_overdue_projects (db : DB) (today : Z) : list Project :=
  map _to_domain (filter (overdue_filter today) (projetos db)).

(** [count_by_status]: [status = :status AND deleted_at IS NULL], [.count()]. *)
Definition count_by_status (db : DB) (st : ProjectStatus) : nat :=
  List.length (filter live (filter (fun r => status_eqb (p_status r) st) (projetos db))).

End Repo.

(* ------------------------------------------------------------------ *)
(** ** The SQLAlchemy session and the repository's writing methods *)

Module Session.
Import ProjectEntity Schema Repo.

(** A session: the committed database and the transaction's own view
    (committed data plus the statements issued and not yet committed). *)
Record Sess := mkSess { sdb : DB; swork : DB }.

Definition commit (s : Sess) : Sess := {| sdb := swork s; swork := swork s |}.
Definition rollback (s : Sess) : Sess := {| sdb := sdb s; swork := sdb s |}.

Definition with_projetos (db : DB) (ps : list ProjectRow) : DB :=
  {| projetos := ps; project_contributors := project_contributors db;
     checkins := checkins db; anexos := anexos db;
     tarefas_executadas := tarefas_executadas db; sprints := sprints db;
     sprint_tasks := sprint_tasks db; logs_auditoria := logs_auditoria db |}.

(** The generated primary key of an insert into [projetos]. *)
Definition next_id (rows : list ProjectRow) : Z :=
  1 + fold_right (fun r m => Z.max (p_id r) m) 0 rows.

(** [SQLAlchemyProjectRepository.save]: both branches call
    [self.session.commit()] themselves. [now] is the value of
    [func.now()]. *)
Definition save (p : Project) (now : Z) (s : Sess) : outcome Project * Sess :=
  match id p with
  | None =>
      let row := _to_orm p (next_id (projetos (swork s))) now in
      let s1 := {| sdb := sdb s;
                   swork := with_projetos (swork s) (projetos (swork s) ++ [row]) |} in
      (Ok (_to_domain row), commit s1)
  | Some i =>
      match find (fun r => Z.eqb (p_id r) i && live r) (projetos (swork s)) with
      | None => (Raise ProjectNotFoundError, s)
      | Some r =>
          let r' := _update_orm r p now in
          let rows := map (fun x => if Z.eqb (p_id x) i then r' else x)
                          (projetos (swork s)) in
          (Ok (_to_domain r'), commit {| sdb := sdb s; swork := with_projetos (swork s) rows |})
      end
  end.

(** [SQLAlchemyProjectRepository.delete]: statements 1-7, then the
    project row; [rowcount == 0] returns [False] before the commit. *)
Definition delete (pid : Z) (s : Sess) : outcome bool * Sess :=
  let w := run_statements (dependent_statements pid) (swork s) in
  let rc := project_rowcount pid w in
  let w' := del_project pid w in
  if Nat.eqb rc 0
  then (Ok false, {| sdb := sdb s; swork := w' |})
  else (Ok true, commit {| sdb := sdb s; swork := w' |}).

(** [self.session.query(ORMProject).get(project_id)]: a primary-key
    lookup, which does not look at [deleted_at]. *)
Definition get_orm_project (db : DB) (project_id : Z) : option ProjectRow :=
  find (fun r => Z.eqb (p_id r) project_id) (projetos db).

(** [user in project.contributors]. *)
Definition is_contributor (db : DB) (project_id user_id : Z) : bool :=
  existsb (fun c => Z.eqb (pc_project_id c) project_id && Z.eqb (pc_user_id c) user_id)
          (project_contributors db).

Definition with_contributors (db : DB) (cs : list ContributorRow) : DB :=
  {| projetos := projetos db; project_contributors := cs;
     checkins := checkins db; anexos := anexos db;
     tarefas_executadas := tarefas_executadas db; sprints := sprints db;
     sprint_tasks := sprint_tasks db; logs_auditoria := logs_auditoria db |}.

(** [add_contributor]; [usuarios] are the ids of the rows of table
    [usuarios] ([session.query(User).get(user_id)]). Every exception of the
    [try] block, [ProjectNotFoundError] included, reaches
    [except Exception]: [session.rollback()], then [RepositoryError]. The
    [IntegrityError] branch needs a concurrent insert of the same pair,
    which the membership test excludes within one session. *)
Definition add_contributor (usuarios : list Z) (project_id user_id : Z) (s : Sess)
    : outcome unit * Sess :=
  match get_orm_project (swork s) project_id with
  | None => (Raise RepositoryError, rollback s)
  | Some _ =>
      if negb (Z_in user_id usuarios) then (Raise RepositoryError, rollback s)
      else if negb (is_contributor (swork s) project_id user_id) then
        let cs := project_contributors (swork s) ++ [mkContributor project_id user_id] in
        (Ok tt, commit {| sdb := sdb s; swork := with_contributors (swork s) cs |})
      else (Ok tt, s)
  end.

(** [remove_contributor]: removing the user from the relationship deletes
    the association row [(project_id, user_id)] (its primary key). *)
Definition remove_contributor (usuarios : list Z) (project_id user_id : Z) (s : Sess)
    : outcome unit * Sess :=
  match get_orm_project (swork s) project_id with
  | None => (Raise RepositoryError, rollback s)
  | Some _ =>
      if negb (Z_in user_id usuarios) then (Raise RepositoryError, rollback s)
      else if is_contributor (swork s) project_id user_id then
        let cs := filter (fun c => negb (Z.eqb (pc_project_id c) project_id &&
                                         Z.eqb (pc_user_id c) user_id))
                         (project_contributors (swork s)) in
        (Ok tt, commit {| sdb := sdb s; swork := with_contributors (swork s) cs |})
      else (Ok tt, s)
  end.

(** [get_contributors]: the ids of the users of [project.contributors];
    no rollback on the error path. *)
Definition get_contributors (db : DB) (project_id : Z) : outcome (list Z) :=
  match get_orm_project db project_id with
  | None => Raise RepositoryError
  | Some _ =>
      Ok (map pc_user_id (filter (fun c => Z.eqb (pc_project_id c) project_id)
                                 (project_contributors db)))
  end.

End Session.

(* ------------------------------------------------------------------ *)
(** ** ProjectService.list_projects (app/services/project_service.py) *)

Module Service.
Import ProjectEntity Schema Repo.

(** [limit = min(limit, 100)], then [repository.get_all]. *)
Definition list_projects (db : DB) (skip limit : nat) (st : option ProjectStatus)
    (client resp : option Z) : list Project :=
  get_all db skip (Nat.min limit 100) st client resp.

(** [list_projects_cursor]: [limit = min(limit, 100)], then
    [repository.get_with_cursor]. *)
Definition list_projects_cursor (db : DB) (cursor : option Z) (limit : nat)
    (st : option ProjectStatus) (client : option Z) : list Project * option Z :=
  get_with_cursor db cursor (Nat.min limit 100) st client.





(** [ProjectStatus.value]. *)
Definition status_value (s : ProjectStatus) : string :=
  match s with
  | PLANEJAMENTO => "planejamento"
  | EM_ANDAMENTO => "em_andamento"
  | PAUSADO => "pausado"
  | CONCLUIDO => "concluido"
  | CANCELADO => "cancelado"
  end.

(** [for status in ProjectStatus]: definition order. *)
Definition all_statuses : list ProjectStatus :=
  [PLANEJAMENTO; EM_ANDAMENTO; PAUSADO; CONCLUIDO; CANCELADO].

(** [get_project_statistics]: the dictionary, as its items in insertion
    order. *)
Definition get_project_statistics (db : DB) (today : Z) : list (string * nat) :=
  map (fun s => (status_value s, count_by_status db s)) all_statuses ++
  [("total_active"%string, List.length (get_active_projects db));
   ("total_overdue"%string, List.length (get_overdue_projects db today))].

(** [d[key]] on such a dictionary ([None] for a missing key). *)
Definition dict_get (d : list (string * nat)) (key : string) : option nat :=
  match find (fun kv => String.eqb (fst kv) key) d with
  | Some kv => Some (snd kv)
  | None => None
  end.

End Service.

(* ------------------------------------------------------------------ *)
(** ** SqlAlchemyUnitOfWork (app/core/unit_of_work.py) *)

Module UoW.
Import ProjectEntity Schema Repo.

(** The database and one [SqlAlchemyUnitOfWork] object: [_session] is the
    open session (its number and its transaction view) and [_projects]
    the cached repository, identified by the number of the session it was
    built on. *)
Record UoW := mkUoW {
  database : DB;
  _session : option (nat * DB);
  _projects : option nat;
  sessions_opened : nat
}.

(** [SqlAlchemyUnitOfWork()]. *)
Definition new_uow (db : DB) : UoW :=
  {| database := db; _session := None; _projects := None; sessions_opened := 0 |}.

Definition M (A : Type) := UoW -> outcome A * UoW.

Definition ret {A} (a : A) : M A := fun u => (Ok a, u).
Definition raise {A} (e : exc) : M A := fun u => (Raise e, u).
Definition bind {A B} (m : M A) (k : A -> M B) : M B :=
  fun u => match m u with
           | (Ok a, u') => k a u'
           | (Raise e, u') => (Raise e, u')
           end.

Notation "x <- m ;; k" := (bind m (fun x => k)) (at level 61, m at next level, right associativity).
Notation "m ;;; k" := (bind m (fun _ => k)) (at level 61, right associativity).

Definition set_session (u : UoW) (s : option (nat * DB)) : UoW :=
  {| database := database u; _session := s; _projects := _projects u;
     sessions_opened := sessions_opened u |}.
Definition set_database (u : UoW) (db : DB) : UoW :=
  {| database := db; _session := _session u; _projects := _projects u;
     sessions_opened := sessions_opened u |}.
Definition set_projects (u : UoW) (r : option nat) : UoW :=
  {| database := database u; _session := _session u; _projects := r;
     sessions_opened := sessions_opened u |}.

(** [__enter__]: [self._session = self.session_factory()]. *)
Definition enter : M unit := fun u =>
  (Ok tt, {| database := database u;
             _session := Some (sessions_opened u, database u);
             _projects := _projects u;
             sessions_opened := S (sessions_opened u) |}).

(** The [projects] property. *)
Definition projects : M nat := fun u =>
  match _projects u with
  | Some r => (Ok r, u)
  | None =>
      match _session u with
      | None => (Raise RuntimeError, u)
      | Some (sid, _) => (Ok sid, set_projects u (Some sid))
      end
  end.

(** A repository method run on the session the repository was built on.
    A session that was closed is reusable in SQLAlchemy: it begins a new
    transaction on the current database. *)
Definition repo_call {A} (r : nat) (op : Session.Sess -> outcome A * Session.Sess) : M A :=
  fun u =>
    match _session u with
    | Some (sid, w) =>
        if Nat.eqb sid r then
          let (res, s') := op {| Session.sdb := database u; Session.swork := w |} in
          (res, set_session (set_database u (Session.sdb s')) (Some (sid, Session.swork s')))
        else
          let (res, s') := op {| Session.sdb := database u; Session.swork := database u |} in
          (res, set_database u (Session.sdb s'))
    | None =>
        let (res, s') := op {| Session.sdb := database u; Session.swork := database u |} in
        (res, set_database u (Session.sdb s'))
    end.

Definition commit : M unit := fun u =>
  match _session u with
  | None => (Raise RuntimeError, u)
  | Some (_, w) => (Ok tt, set_database u w)
  end.

Definition rollback : M unit := fun u =>
  match _session u with
  | None => (Raise RuntimeError, u)
  | Some (sid, _) => (Ok tt, set_session u (Some (sid, database u)))
  end.

(** [flush] sends pending statements; in this model they are already in
    the transaction's view. *)
Definition flush : M unit := fun u =>
  match _session u with
  | None => (Raise RuntimeError, u)
  | Some _ => (Ok tt, u)
  end.

(** [__exit__]: roll back when leaving on an exception, then close the
    session (its uncommitted statements are dropped). [_projects] is left
    as it is. Returns [False]. *)
Definition close : M unit := fun u => (Ok tt, set_session u None).

Definition __exit__ (e : option exc) : M bool :=
  match e with
  | Some _ => rollback ;;; close ;;; ret false
  | None => close ;;; ret false
  end.

(** [with uow: body]: an exception of the body is propagated after
    [__exit__] (unless [__exit__] itself raises). *)
Definition with_uow {A} (body : M A) : M A := fun u =>
  let (_, u1) := enter u in
  match body u1 with
  | (Ok a, u2) =>
      match __exit__ None u2 with
      | (Ok _, u3) => (Ok a, u3)
      | (Raise e', u3) => (Raise e', u3)
      end
  | (Raise e, u2) =>
      match __exit__ (Some e) u2 with
      | (Ok _, u3) => (Raise e, u3)
      | (Raise e', u3) => (Raise e', u3)
      end
  end.

(** [uow.projects.save(p)] for each [p], in order. *)
Fixpoint save_all (ps : list Project) (now : Z) : M (list Project) :=
  match ps with
  | [] => ret []
  | p :: t =>
      r <- projects ;;
      saved <- repo_call r (Session.save p now) ;;
      rest <- save_all t now ;;
      ret (saved :: rest)
  end.

(** N saves followed by a failure before [uow.commit()]. *)
Definition saves_then_failure (ps : list Project) (now : Z) : M unit :=
  save_all ps now ;;; raise InjectedError.

(** A fresh scope listing the live projects. *)
Definition fresh_scope_listing (n : nat) : M (list Project) :=
  with_uow (r <- projects ;;
            repo_call r (fun s => (Ok (get_all (Session.swork s) 0 n None None None), s))).

End UoW.

(* ------------------------------------------------------------------ *)
(** ** Concrete inputs used by witnesses and counterexamples *)

Module Fixtures.
Import ProjectEntity Schema.

Definition planning_project (obs : option string) : Project :=
  {| id := Some 1; name := "P"; description := None; start_date := 100;
     end_date_planned := Some 110; end_date_actual := None; status := PLANEJAMENTO;
     client_id := 1; responsible_user_id := 1; observations := obs;
     estimated_value := None; created_at := None; updated_at := None;
     deleted_at := None |}.

Definition new_project (nm : string) : Project :=
  {| id := None; name := nm; description := None; start_date := 100;
     end_date_planned := None; end_date_actual := None; status := PLANEJAMENTO;
     client_id := 1; responsible_user_id := 1; observations := None;
     estimated_value := None; created_at := None; updated_at := None;
     deleted_at := None |}.

Definition row (i client : Z) : ProjectRow :=
  {| p_id := i; nome := "P"; descricao := None; data_inicio := 100;
     data_fim_prevista := None; data_fim_real := None; p_status := PLANEJAMENTO;
     cliente_id := client; responsavel_id := 1; observacoes := None;
     valor_estimado := None; p_created_at := Some 0; p_updated_at := None;
     p_deleted_at := None |}.

Definition empty_db : DB :=
  {| projetos := []; project_contributors := []; checkins := []; anexos := [];
     tarefas_executadas := []; sprints := []; sprint_tasks := [];
     logs_auditoria := [] |}.

Definition db_of_rows (rows : list ProjectRow) : DB :=
  {| projetos := rows; project_contributors := []; checkins := []; anexos := [];
     tarefas_executadas := []; sprints := []; sprint_tasks := [];
     logs_auditoria := [] |}.

(** Ids 1..n, all of client 1. *)
Definition rows_upto (n : nat) : list ProjectRow :=
  map (fun k => row (Z.of_nat k) 1) (seq 1 n).

(** Two projects (ids 1 and 2); project 1 has a contributor, a check-in
    with an attachment and an executed task, a sprint with a task and an
    audit entry; project 2 has one of each as well. *)
Definition two_projects_db : DB :=
  {| projetos := [row 1 1; row 2 2];
     project_contributors := [mkContributor 1 7; mkContributor 2 7];
     checkins := [mkCheckin 10 1; mkCheckin 20 2];
     anexos := [mkAnexo 100 10; mkAnexo 200 20];
     tarefas_executadas := [mkTarefaExecutada 100 10; mkTarefaExecutada 200 20];
     sprints := [mkSprint 30 1; mkSprint 40 2];
     sprint_tasks := [mkSprintTask 300 30; mkSprintTask 400 40];
     logs_auditoria := [mkAudit 1 "projetos" 1; mkAudit 2 "projetos" 2;
                        mkAudit 3 "checkins" 1] |}.

(** A database with no project 5 but an audit entry about id 5 (the
    [registro_id] column is not a foreign key). *)
Definition orphan_audit_db : DB :=
  {| projetos := [row 1 1]; project_contributors := []; checkins := [];
     anexos := []; tarefas_executadas := []; sprints := []; sprint_tasks := [];
     logs_auditoria := [mkAudit 1 "projetos" 5] |}.

End Fixtures.

Module ProofDefs.
Import ProjectEntity Schema Repo UoW.

Definition opt_filter {A} (b : bool) (f : A -> bool) (l : list A) : list A :=
  if b then filter f l else l.

(** A database part-way through the cascade: each table is either
    untouched or already purged of the rows tied to [pid]. *)
Definition cascade_state (w : DB) (pid : Z) (fc fa ft fck fst fsp fla fp : bool) : DB :=
  {| projetos := opt_filter fp (fun r => negb (Z.eqb (p_id r) pid)) (projetos w);
     project_contributors :=
       opt_filter fc (fun c => negb (Z.eqb (pc_project_id c) pid)) (project_contributors w);
     checkins := opt_filter fck (fun c => negb (Z.eqb (ck_projeto_id c) pid)) (checkins w);
     anexos := opt_filter fa (fun a => negb (Z_in (an_checkin_id a) (checkin_ids_of w pid)))
                          (anexos w);
     tarefas_executadas :=
       opt_filter ft (fun t => negb (Z_in (te_checkin_id t) (checkin_ids_of w pid)))
                  (tarefas_executadas w);
     sprints := opt_filter fsp (fun s => negb (Z.eqb (sp_project_id s) pid)) (sprints w);
     sprint_tasks :=
       opt_filter fst (fun t => negb (Z_in (st_sprint_id t) (sprint_ids_of w pid)))
                  (sprint_tasks w);
     logs_auditoria :=
       opt_filter fla (fun l => negb (String.eqb (la_tabela l) "projetos" && Z.eqb (la_registro_id l) pid))
                  (logs_auditoria w) |}.

Definition id_le (a b : ProjectRow) : Prop := p_id a <= p_id b.
Definition id_lt (a b : ProjectRow) : Prop := p_id a < p_id b.

Definition cursor_ok (cursor : option Z) (P : list ProjectRow) : Prop :=
  match cursor with
  | None => P = []
  | Some c => exists P0 x, P = P0 ++ [x] /\ p_id x = c
  end.

(** The state of a [with] block whose session number is [n] and whose
    transaction has nothing pending. *)
Definition clean_scope (n : nat) (u : UoW) : Prop :=
  _session u = Some (n, database u) /\ (_projects u = None \/ _projects u = Some n).

(** A caller invoking the entity's state-changing methods in turn and
    catching each exception. *)
Inductive call :=
| CStart
| CPause
| CComplete (completion_date : option Z) (today : Z)
| CCancel (reason : option string)
| CUpdate (n d : option string) (e : option Z) (o v : option string).

Definition run_call (p : Project) (c : call) : method :=
  match c with
  | CStart => start p
  | CPause => pause p
  | CComplete d today => complete p d today
  | CCancel r => cancel p r
  | CUpdate n d e o v => update_details p n d e o v
  end.

Fixpoint run_calls (p : Project) (cs : list call) : Project :=
  match cs with
  | [] => p
  | c :: t => run_calls (snd (run_call p c)) t
  end.

End ProofDefs.

(* ================================================================== *)
(** * Theorems *)

Module EntityFacts.
Import ProjectEntity.

Lemma status_eqb_eq a b : status_eqb a b = true <-> a = b.
Proof. destruct a, b; simpl; split; congruence. Qed.

Lemma status_eqb_refl a : status_eqb a a = true.
Proof. apply status_eqb_eq; reflexivity. Qed.

Lemma status_eqb_neq a b : a <> b -> status_eqb a b = false.
Proof.
  intros H; destruct (status_eqb a b) eqn:E; [apply status_eqb_eq in E; congruence | reflexivity].
Qed.

(** [_validate_dates] accepts exactly the dates with planned end not
    before the start. *)
Lemma validate_dates_ok p :
  _validate_dates p = Ok tt <-> (forall e, end_date_planned p = Some e -> start_date p <= e).
Proof.
  unfold _validate_dates; destruct (end_date_planned p) as [e|]; split.
  - destruct (e <? start_date p) eqn:E; [discriminate|]. intros _ e' H'.
    inversion H'; subst. apply Z.ltb_ge in E; lia.
  - intros H. specialize (H e eq_refl). destruct (e <? start_date p) eqn:E; [|reflexivity].
    apply Z.ltb_lt in E; lia.
  - intros _ e' H'; discriminate.
  - reflexivity.
Qed.

Lemma validate_dates_cases p :
  _validate_dates p = Ok tt \/ _validate_dates p = Raise BusinessRuleViolationError.
Proof.
  unfold _validate_dates; destruct (end_date_planned p); [|auto].
  destruct (_ <? _); auto.
Qed.

(** C6: construction succeeds iff the planned end date is absent or not
    before the start date, and fails with the date-validation error
    ([BusinessRuleViolationError]) otherwise; [update_details] given a
    planned end date before the start date raises that error, and given
    a valid one on a modifiable project stores it unchanged. *)
Theorem planned_end_date_rule :
  (forall p, construct p = Ok p <->
             (forall e, end_date_planned p = Some e -> start_date p <= e)) /\
  (forall p, construct p = Raise BusinessRuleViolationError <->
             (exists e, end_date_planned p = Some e /\ e < start_date p)) /\
  (forall p n d e o v, e < start_date p ->
     fst (update_details p n d (Some e) o v) = Raise BusinessRuleViolationError) /\
  (forall p n d e o v, is_modifiable p = true -> start_date p <= e ->
     fst (update_details p n d (Some e) o v) = Ok tt /\
     end_date_planned (snd (update_details p n d (Some e) o v)) = Some e).
Proof.
  split; [|split; [|split]].
  - intros p. rewrite <- validate_dates_ok. unfold construct.
    destruct (validate_dates_cases p) as [H|H]; rewrite H; split; intro; congruence.
  - intros p. unfold construct, _validate_dates.
    destruct (end_date_planned p) as [e|]; split.
    + destruct (e <? start_date p) eqn:E; intro H; [|discriminate].
      exists e; split; [reflexivity|]. apply Z.ltb_lt; exact E.
    + intros [e' [He' Hlt]]. inversion He'; subst.
      apply Z.ltb_lt in Hlt; rewrite Hlt; reflexivity.
    + discriminate.
    + intros [e' [He' _]]; discriminate.
  - intros p n d e o v Hlt. unfold update_details.
    destruct (is_modifiable p); simpl; [|reflexivity].
    destruct n; destruct d; simpl; unfold _validate_dates; simpl; rewrite (proj2 (Z.ltb_lt _ _) Hlt); reflexivity.
  - intros p n d e o v Hm Hle. unfold update_details. rewrite Hm; simpl.
    assert (Hge : (e <? start_date p) = false) by (apply Z.ltb_ge; lia).
    destruct n; destruct d; simpl; unfold _validate_dates; simpl; rewrite Hge; destruct o; destruct v; simpl; auto.
Qed.

(** C7: [complete] succeeds exactly from [EM_ANDAMENTO], then sets the
    status to [CONCLUIDO] and [end_date_actual] to the given date or to
    today, and otherwise changes nothing; [start], [pause], [cancel] and
    [update_details] never change [end_date_actual], whether they succeed
    or raise. *)
Theorem end_date_actual_only_by_complete :
  (forall p d today, fst (complete p d today) = Ok tt <-> status p = EM_ANDAMENTO) /\
  (forall p d today, status p = EM_ANDAMENTO ->
     status (snd (complete p d today)) = CONCLUIDO /\
     end_date_actual (snd (complete p d today)) =
       Some (match d with Some x => x | None => today end)) /\
  (forall p d today, status p <> EM_ANDAMENTO ->
     fst (complete p d today) = Raise InvalidStateTransitionError /\
     snd (complete p d today) = p) /\
  (forall p, end_date_actual (snd (start p)) = end_date_actual p) /\
  (forall p, end_date_actual (snd (pause p)) = end_date_actual p) /\
  (forall p r, end_date_actual (snd (cancel p r)) = end_date_actual p) /\
  (forall p n d e o v,
     end_date_actual (snd (update_details p n d e o v)) = end_date_actual p).
Proof.
  split; [|split; [|split; [|split; [|split; [|split]]]]].
  - intros p d today. unfold complete.
    destruct (status p) eqn:S; simpl; split; intro H; try discriminate; try reflexivity.
  - intros p d today H. unfold complete. rewrite H. simpl. split; reflexivity.
  - intros p d today H. unfold complete. rewrite (status_eqb_neq _ _ H). simpl. split; reflexivity.
  - intros p. unfold start. destruct (status p); reflexivity.
  - intros p. unfold pause. destruct (status_eqb (status p) EM_ANDAMENTO); reflexivity.
  - intros p r. unfold cancel. destruct (status_eqb (status p) CONCLUIDO); [reflexivity|].
    destruct (str_truthy r); reflexivity.
  - intros p n d e o v. unfold update_details.
    destruct (is_modifiable p); simpl; [|reflexivity].
    destruct e as [e|].
    + destruct (_validate_dates _); simpl;
        [destruct o; destruct v; destruct n; destruct d; reflexivity
        |destruct n; destruct d; reflexivity].
    + destruct o; destruct v; destruct n; destruct d; reflexivity.
Qed.

(** C8 (as amended): [cancel] raises [InvalidStateTransitionError] iff the
    status is [CONCLUIDO] (leaving the project unchanged); from any other
    status, [CANCELADO] included, it sets the status to [CANCELADO]; a
    non-empty reason is written as ["[CANCELADO] " ++ reason ++ "\n" ++
    old] (old = previous observations, or "" when absent), while an absent
    or empty reason leaves the observations as they were. *)
Theorem cancel_spec :
  (forall p r, fst (cancel p r) = Raise InvalidStateTransitionError <-> status p = CONCLUIDO) /\
  (forall p r, status p = CONCLUIDO -> snd (cancel p r) = p) /\
  (forall p r, status p <> CONCLUIDO ->
     fst (cancel p r) = Ok tt /\ status (snd (cancel p r)) = CANCELADO) /\
  (forall p s, status p <> CONCLUIDO -> s <> EmptyString ->
     observations (snd (cancel p (Some s))) =
       Some ("[CANCELADO] " ++ s ++ newline ++
             match observations p with Some o => o | None => EmptyString end)%string) /\
  (forall p r, status p <> CONCLUIDO -> str_truthy r = false ->
     observations (snd (cancel p r)) = observations p).
Proof.
  split; [|split; [|split; [|split]]].
  - intros p r. unfold cancel.
    destruct (status p) eqn:S; simpl;
      try (destruct (str_truthy r)); simpl; split; intro H; congruence.
  - intros p r H. unfold cancel. rewrite H. reflexivity.
  - intros p r H. unfold cancel. rewrite (status_eqb_neq _ _ H).
    destruct (str_truthy r); split; reflexivity.
  - intros p s H Hs. unfold cancel. rewrite (status_eqb_neq _ _ H).
    unfold str_truthy. apply String.eqb_neq in Hs. rewrite Hs. reflexivity.
  - intros p r H Hr. unfold cancel. rewrite (status_eqb_neq _ _ H), Hr. reflexivity.
Qed.

(** C8 as stated fails: a supplied empty reason is falsy, so it is not
    written to the observations. *)
Lemma cancel_empty_reason_not_recorded :
  observations (snd (cancel (Fixtures.planning_project (Some "x"%string)) (Some EmptyString)))
  <> Some ("[CANCELADO] " ++ EmptyString ++ newline ++ "x")%string.
Proof. vm_compute. discriminate. Qed.

End EntityFacts.

Module ListingFacts.
Import ProjectEntity Schema Repo.

(** C4 (as amended): [ProjectService.list_projects] passes
    [min(limit, 100)] to [get_all], so it returns at most 100 projects;
    [get_all] itself returns at most the [limit] it is given, with no cap
    of its own. *)
Theorem list_projects_capped_at_100 :
  forall (db : DB) (skip limit : nat) st client resp,
    Service.list_projects db skip limit st client resp
      = get_all db skip (Nat.min limit 100) st client resp /\
    (List.length (Service.list_projects db skip limit st client resp) <= 100)%nat /\
    (List.length (get_all db skip limit st client resp) <= limit)%nat.
Proof.
  intros db skip limit st client resp.
  unfold Service.list_projects, get_all.
  rewrite !length_map. split; [reflexivity|split].
  - eapply Nat.le_trans; [apply firstn_le_length|apply Nat.le_min_r].
  - apply firstn_le_length.
Qed.

(** C4 as stated fails: [get_all] called with [limit=1000] (as
    [get_by_client] does) over 101 live projects returns all 101. *)
Lemma get_all_not_capped :
  ~ (List.length (get_all (Fixtures.db_of_rows (Fixtures.rows_upto 101)) 0 1000
                          None None None) <= 100)%nat.
Proof. vm_compute. lia. Qed.

(** C9: [get_all] tests [client_id] and [responsible_id] by truthiness:
    [client_id = 0] (resp. [responsible_id = 0]) gives the same result as
    no filter, e.g. projects of clients 1 and 2 both come back. *)
Theorem get_all_zero_filters_ignored :
  (forall (db : DB) (skip limit : nat) st resp,
     get_all db skip limit st (Some 0) resp = get_all db skip limit st None resp) /\
  (forall (db : DB) (skip limit : nat) st client,
     get_all db skip limit st client (Some 0) = get_all db skip limit st client None) /\
  map client_id (get_all (Fixtures.db_of_rows [Fixtures.row 1 1; Fixtures.row 2 2])
                         0 10 None (Some 0) None) = [1; 2].
Proof.
  split; [|split].
  - intros. reflexivity.
  - intros. reflexivity.
  - vm_compute. reflexivity.
Qed.

End ListingFacts.

Module DeleteFacts.
Import ProjectEntity Schema Repo Session ProofDefs.

Lemma in_opt_filter {A} b (f : A -> bool) l x :
  In x (opt_filter b f l) <-> In x l /\ (b = true -> f x = true).
Proof.
  unfold opt_filter; destruct b.
  - rewrite filter_In. intuition.
  - intuition discriminate.
Qed.

Lemma Z_in_map {A} (f : A -> Z) (p : A -> bool) l x :
  In x l -> p x = true -> Z_in (f x) (map f (filter p l)) = true.
Proof.
  intros Hx Hp. unfold Z_in. apply existsb_exists. exists (f x). split.
  - apply in_map. apply filter_In. auto.
  - apply Z.eqb_refl.
Qed.

(** A purged table never leaves a row pointing at a purged row, provided
    the referencing table was purged no later than the referenced one. *)
Lemma fk_ok_cascade_state w pid fc fa ft fck fst fsp fla fp :
  fk_ok w ->
  (fck = true -> fa = true /\ ft = true) ->
  (fsp = true -> fst = true) ->
  (fp = true -> fc = true /\ fck = true /\ fsp = true) ->
  fk_ok (cascade_state w pid fc fa ft fck fst fsp fla fp).
Proof.
  intros [H1 [H2 [H3 [H4 [H5 H6]]]]] Hck Hsp Hp.
  unfold cascade_state, fk_ok; simpl.
  repeat split; intros x Hx; apply in_opt_filter in Hx; destruct Hx as [Hx Hf].
  - destruct (H1 x Hx) as [p [Hin Heq]]. exists p. split; [|exact Heq].
    apply in_opt_filter. split; [exact Hin|]. intros E. destruct (Hp E) as [E1 _].
    specialize (Hf E1). rewrite Heq. exact Hf.
  - destruct (H2 x Hx) as [p [Hin Heq]]. exists p. split; [|exact Heq].
    apply in_opt_filter. split; [exact Hin|]. intros E. destruct (Hp E) as [_ [E1 _]].
    specialize (Hf E1). rewrite Heq. exact Hf.
  - destruct (H3 x Hx) as [c [Hin Heq]]. exists c. split; [|exact Heq].
    apply in_opt_filter. split; [exact Hin|]. intros E. destruct (Hck E) as [E1 _].
    specialize (Hf E1). destruct (Z.eqb (ck_projeto_id c) pid) eqn:Ec; [|reflexivity].
    exfalso. rewrite <- Heq in Hf. unfold checkin_ids_of in Hf.
    rewrite (Z_in_map ck_id (fun c => Z.eqb (ck_projeto_id c) pid) _ c Hin Ec) in Hf.
    discriminate.
  - destruct (H4 x Hx) as [c [Hin Heq]]. exists c. split; [|exact Heq].
    apply in_opt_filter. split; [exact Hin|]. intros E. destruct (Hck E) as [_ E1].
    specialize (Hf E1). destruct (Z.eqb (ck_projeto_id c) pid) eqn:Ec; [|reflexivity].
    exfalso. rewrite <- Heq in Hf. unfold checkin_ids_of in Hf.
    rewrite (Z_in_map ck_id (fun c => Z.eqb (ck_projeto_id c) pid) _ c Hin Ec) in Hf.
    discriminate.
  - destruct (H5 x Hx) as [p [Hin Heq]]. exists p. split; [|exact Heq].
    apply in_opt_filter. split; [exact Hin|]. intros E. destruct (Hp E) as [_ [_ E1]].
    specialize (Hf E1). rewrite Heq. exact Hf.
  - destruct (H6 x Hx) as [s [Hin Heq]]. exists s. split; [|exact Heq].
    apply in_opt_filter. split; [exact Hin|]. intros E.
    specialize (Hf (Hsp E)). destruct (Z.eqb (sp_project_id s) pid) eqn:Es; [|reflexivity].
    exfalso. rewrite <- Heq in Hf. unfold sprint_ids_of in Hf.
    rewrite (Z_in_map sp_id (fun s => Z.eqb (sp_project_id s) pid) _ s Hin Es) in Hf.
    discriminate.
Qed.

Lemma filter_all_true {A} (f : A -> bool) l :
  (forall x, In x l -> f x = true) -> filter f l = l.
Proof.
  induction l as [|a t IH]; intros H; simpl; [reflexivity|].
  rewrite (H a (or_introl eq_refl)). f_equal. apply IH. intros x Hx. apply H. right; exact Hx.
Qed.

Lemma filter_all_false {A} (f : A -> bool) l :
  (forall x, In x l -> f x = false) -> filter f l = [].
Proof.
  induction l as [|a t IH]; intros H; simpl; [reflexivity|].
  rewrite (H a (or_introl eq_refl)). apply IH. intros x Hx. apply H. right; exact Hx.
Qed.

Lemma rowcount_pos pid l r :
  In r l -> p_id r = pid ->
  Nat.eqb (List.length (filter (fun r => Z.eqb (p_id r) pid) l)) 0 = false.
Proof.
  intros Hin Heq. apply Nat.eqb_neq.
  assert (Hf : In r (filter (fun r => Z.eqb (p_id r) pid) l))
    by (apply filter_In; split; [exact Hin|apply Z.eqb_eq; exact Heq]).
  destruct (filter _ l); [contradiction|simpl; discriminate].
Qed.

Lemma del_project_noop db pid :
  (forall r, In r (projetos db) -> p_id r <> pid) -> del_project pid db = db.
Proof.
  intros H. destruct db as [ps pc ck an te sp stk la]. unfold del_project; simpl in *.
  rewrite filter_all_true; [reflexivity|].
  intros x Hx. apply negb_true_iff, Z.eqb_neq. apply H; exact Hx.
Qed.

Ltac cascade_step fc fa ft fck fst fsp fla fp :=
  match goal with
  | Hfk : fk_ok ?w |- _ =>
      refine (fk_ok_cascade_state w _ fc fa ft fck fst fsp fla fp Hfk _ _ _);
      intros Hb; try discriminate Hb; auto
  end.

(** C3: when the project row exists, [delete] returns [True] and commits
    a database in which every table has lost exactly the rows tied to the
    project (its contributors; the attachments and executed tasks of its
    check-ins; its check-ins; the tasks of its sprints; its sprints; its
    audit entries; its own row) and keeps every other row as it was; and
    the eight statements run dependents first: starting from a database
    whose foreign keys hold, they hold after every statement. *)
Theorem delete_cascades (s : Sess) (pid : Z) :
  (exists r, In r (projetos (swork s)) /\ p_id r = pid) ->
  fst (delete pid s) = Ok true /\
  sdb (snd (delete pid s)) = swork (snd (delete pid s)) /\
  swork (snd (delete pid s)) =
    cascade_state (swork s) pid true true true true true true true true /\
  (fk_ok (swork s) ->
   Forall fk_ok (trace (dependent_statements pid ++ [del_project pid]) (swork s))).
Proof.
  intros [r [Hin Heq]].
  assert (E : Nat.eqb (project_rowcount pid (run_statements (dependent_statements pid) (swork s))) 0
              = false) by exact (rowcount_pos pid (projetos (swork s)) r Hin Heq).
  unfold delete. cbv zeta. rewrite E. simpl.
  split; [reflexivity|split; [reflexivity|split; [reflexivity|]]].
  intros Hfk.
  simpl trace.
  apply Forall_cons; [cascade_step true false false false false false false false|].
  apply Forall_cons; [cascade_step true true false false false false false false|].
  apply Forall_cons; [cascade_step true true true false false false false false|].
  apply Forall_cons; [cascade_step true true true true false false false false|].
  apply Forall_cons; [cascade_step true true true true true false false false|].
  apply Forall_cons; [cascade_step true true true true true true false false|].
  apply Forall_cons; [cascade_step true true true true true true true false|].
  apply Forall_cons; [cascade_step true true true true true true true true|].
  apply Forall_nil.
Qed.

(** C10: when no project row has the id, [delete] returns [False] with
    the committed database untouched (no commit) and the statements 1-7
    still pending on the session (no rollback). *)
Theorem delete_missing_leaves_pending (s : Sess) (pid : Z) :
  (forall r, In r (projetos (swork s)) -> p_id r <> pid) ->
  delete pid s =
    (Ok false, {| sdb := sdb s;
                  swork := run_statements (dependent_statements pid) (swork s) |}).
Proof.
  intros H.
  assert (Hp : forall r, In r (projetos (run_statements (dependent_statements pid) (swork s)))
                         -> p_id r <> pid) by exact H.
  assert (E : project_rowcount pid (run_statements (dependent_statements pid) (swork s)) = 0%nat).
  { unfold project_rowcount. rewrite filter_all_false; [reflexivity|].
    intros x Hx. apply Z.eqb_neq. apply Hp; exact Hx. }
  unfold delete. cbv zeta. rewrite E, (del_project_noop _ _ Hp). reflexivity.
Qed.

(** C3 at a concrete input: project 1 of [two_projects_db] is deleted with
    all its dependents; project 2 and its dependents remain. *)
Lemma delete_cascades_witness :
  fst (delete 1 {| sdb := Fixtures.two_projects_db; swork := Fixtures.two_projects_db |}) = Ok true /\
  swork (snd (delete 1 {| sdb := Fixtures.two_projects_db; swork := Fixtures.two_projects_db |})) =
    cascade_state Fixtures.two_projects_db 1 true true true true true true true true.
Proof.
  destruct (delete_cascades {| sdb := Fixtures.two_projects_db; swork := Fixtures.two_projects_db |} 1)
    as [H1 [_ [H3 _]]].
  - exists (Fixtures.row 1 1). split; [simpl; left; reflexivity|reflexivity].
  - split; [exact H1|exact H3].
Defined.

(** C10 at a concrete input: no project 5, but an audit entry about id 5;
    [delete 5] returns [False] and the entry's deletion stays pending. *)
Lemma delete_missing_leaves_pending_witness :
  delete 5 {| sdb := Fixtures.orphan_audit_db; swork := Fixtures.orphan_audit_db |} =
    (Ok false, {| sdb := Fixtures.orphan_audit_db;
                  swork := run_statements (dependent_statements 5) Fixtures.orphan_audit_db |}) /\
  logs_auditoria (run_statements (dependent_statements 5) Fixtures.orphan_audit_db) = [] /\
  logs_auditoria Fixtures.orphan_audit_db <> [].
Proof.
  split; [|split; [vm_compute; reflexivity|vm_compute; discriminate]].
  apply (delete_missing_leaves_pending
           {| sdb := Fixtures.orphan_audit_db; swork := Fixtures.orphan_audit_db |} 5).
  simpl. intros r [<-|[]]. simpl. lia.
Defined.

End DeleteFacts.

Module CursorFacts.
Import ProjectEntity Schema Repo ProofDefs.

(** *** [ORDER BY id] *)

Lemma insert_by_id_perm x l : Permutation (insert_by_id x l) (x :: l).
Proof.
  induction l as [|y t IH]; simpl; [reflexivity|].
  destruct (p_id x <=? p_id y); [reflexivity|].
  rewrite IH. apply perm_swap.
Qed.

Lemma order_by_id_perm l : Permutation (order_by_id l) l.
Proof.
  induction l as [|x t IH]; simpl; [reflexivity|].
  rewrite insert_by_id_perm. constructor. exact IH.
Qed.

Lemma insert_by_id_sorted x l : Sorted id_le l -> Sorted id_le (insert_by_id x l).
Proof.
  induction l as [|y t IH]; intros H; simpl.
  - repeat constructor.
  - destruct (p_id x <=? p_id y) eqn:E.
    + constructor; [exact H|]. constructor. apply Z.leb_le; exact E.
    + apply Sorted_inv in H. destruct H as [Ht Hrel].
      constructor; [apply IH; exact Ht|].
      destruct t as [|z t']; simpl.
      * constructor. unfold id_le. apply Z.leb_gt in E. lia.
      * inversion Hrel; subst. destruct (p_id x <=? p_id z).
        -- constructor. unfold id_le. apply Z.leb_gt in E. lia.
        -- constructor. assumption.
Qed.

Lemma order_by_id_sorted l : Sorted id_le (order_by_id l).
Proof.
  induction l as [|x t IH]; simpl; [constructor|]. apply insert_by_id_sorted; exact IH.
Qed.

Lemma insert_by_id_front x l :
  (forall z, In z l -> p_id x <= p_id z) -> insert_by_id x l = x :: l.
Proof.
  destruct l as [|y t]; intros H; simpl; [reflexivity|].
  rewrite (proj2 (Z.leb_le _ _) (H y (or_introl eq_refl))). reflexivity.
Qed.

Lemma sorted_head_le y t z : Sorted id_le (y :: t) -> In z t -> p_id y <= p_id z.
Proof.
  intros H Hz. apply Sorted_StronglySorted in H.
  - apply StronglySorted_inv in H. destruct H as [_ Hf].
    rewrite Forall_forall in Hf. apply Hf; exact Hz.
  - intros a b c; unfold id_le; lia.
Qed.

Lemma filter_insert_by_id (f : ProjectRow -> bool) x l :
  Sorted id_le l ->
  filter f (insert_by_id x l) =
  if f x then insert_by_id x (filter f l) else filter f l.
Proof.
  induction l as [|y t IH]; intros Hs; simpl.
  - destruct (f x); reflexivity.
  - destruct (p_id x <=? p_id y) eqn:E.
    + simpl. destruct (f x) eqn:Fx; [|reflexivity].
      symmetry. apply insert_by_id_front.
      intros z Hz. apply Z.leb_le in E.
      assert (Hz' : In z (y :: t)).
      { exact (proj1 (proj1 (filter_In f z (y :: t)) Hz)). }
      destruct Hz' as [<-|Hz']; [exact E|].
      pose proof (sorted_head_le y t z Hs Hz'). lia.
    + simpl. rewrite IH by (apply Sorted_inv in Hs; apply Hs).
      destruct (f y) eqn:Fy, (f x) eqn:Fx; simpl; try rewrite E; reflexivity.
Qed.

Lemma order_by_id_filter (f : ProjectRow -> bool) l :
  order_by_id (filter f l) = filter f (order_by_id l).
Proof.
  induction l as [|x t IH]; simpl; [reflexivity|].
  rewrite filter_insert_by_id by apply order_by_id_sorted.
  destruct (f x); simpl; rewrite IH; reflexivity.
Qed.

(** *** Ids are the primary key: sorted means strictly increasing *)

Lemma nodup_map_filter (f : ProjectRow -> Z) (q : ProjectRow -> bool) l :
  NoDup (map f l) -> NoDup (map f (filter q l)).
Proof.
  induction l as [|x t IH]; intros H; simpl; [constructor|].
  inversion H as [|? ? Hnin Hnd]; subst.
  destruct (q x); simpl; [|apply IH; exact Hnd].
  constructor; [|apply IH; exact Hnd].
  intros Hin. apply Hnin. apply in_map_iff in Hin. destruct Hin as [y [Hy Hin]].
  apply filter_In in Hin. rewrite <- Hy. apply in_map. apply Hin.
Qed.

Lemma sorted_nodup_strict l :
  Sorted id_le l -> NoDup (map p_id l) -> StronglySorted id_lt l.
Proof.
  intros Hs Hnd. apply Sorted_StronglySorted in Hs; [|intros a b c; unfold id_le; lia].
  induction Hs as [|a l Hs IH Hf]; [constructor|].
  inversion Hnd as [|? ? Hnin Hnd']; subst.
  constructor; [apply IH; exact Hnd'|].
  rewrite Forall_forall in *. intros b Hb. specialize (Hf b Hb). unfold id_le, id_lt in *.
  assert (p_id a <> p_id b) by (intros E; apply Hnin; rewrite E; apply in_map; exact Hb).
  lia.
Qed.

Lemma strongly_sorted_app_rel (R : ProjectRow -> ProjectRow -> Prop) l1 l2 :
  StronglySorted R (l1 ++ l2) -> forall a b, In a l1 -> In b l2 -> R a b.
Proof.
  induction l1 as [|x t IH]; intros H a b Ha Hb; [destruct Ha|].
  simpl in H. apply StronglySorted_inv in H. destruct H as [H Hf].
  destruct Ha as [<-|Ha].
  - rewrite Forall_forall in Hf. apply Hf. apply in_or_app. right; exact Hb.
  - apply IH; assumption.
Qed.

(** *** One call of [get_with_cursor] without filters *)

Lemma query_eq (db : DB) cursor :
  order_by_id (filter (client_filter None) (filter (status_filter None)
                 (filter (cursor_filter cursor) (filter live (projetos db)))))
  = filter (cursor_filter cursor) (order_by_id (filter live (projetos db))).
Proof.
  rewrite (DeleteFacts.filter_all_true (client_filter None)) by reflexivity.
  rewrite (DeleteFacts.filter_all_true (status_filter None)) by reflexivity.
  apply order_by_id_filter.
Qed.

Lemma get_with_cursor_eq (db : DB) cursor lim :
  get_with_cursor db cursor lim None None =
  let S := filter (cursor_filter cursor) (order_by_id (filter live (projetos db))) in
  if Nat.ltb lim (List.length S)
  then (map _to_domain (firstn lim S),
        match rev (firstn lim S) with last :: _ => Some (p_id last) | [] => None end)
  else (map _to_domain S, None).
Proof.
  unfold get_with_cursor. cbv zeta. rewrite query_eq.
  set (S := filter (cursor_filter cursor) (order_by_id (filter live (projetos db)))).
  rewrite length_firstn, firstn_firstn.
  replace (Nat.min lim (lim + 1)) with lim by lia.
  destruct (Nat.ltb lim (List.length S)) eqn:E.
  - apply Nat.ltb_lt in E.
    replace (Nat.ltb lim (Nat.min (lim + 1) (List.length S))) with true
      by (symmetry; apply Nat.ltb_lt; lia).
    reflexivity.
  - apply Nat.ltb_ge in E.
    replace (Nat.ltb lim (Nat.min (lim + 1) (List.length S))) with false
      by (symmetry; apply Nat.ltb_ge; lia).
    rewrite firstn_all2 by lia. reflexivity.
Qed.

(** The rows after the cursor are exactly the rows not yet returned. *)
Lemma filter_cursor_suffix cursor P S :
  StronglySorted id_lt (P ++ S) -> cursor_ok cursor P ->
  filter (cursor_filter cursor) (P ++ S) = S.
Proof.
  intros Hs Hc. destruct cursor as [c|]; simpl in Hc.
  - destruct Hc as [P0 [x [-> Hx]]].
    pose proof Hs as Hs0.
    rewrite <- app_assoc in Hs. simpl in Hs.
    rewrite <- app_assoc, filter_app. simpl.
    rewrite DeleteFacts.filter_all_false.
    + simpl. rewrite Hx, Z.ltb_irrefl.
      apply DeleteFacts.filter_all_true. intros b Hb.
      assert (H' : id_lt x b).
      { apply (strongly_sorted_app_rel id_lt (P0 ++ [x]) S Hs0);
          [apply in_or_app; right; left; reflexivity|exact Hb]. }
      apply Z.ltb_lt. unfold id_lt in H'. lia.
    + intros a Ha. assert (H' : id_lt a x)
        by (apply (strongly_sorted_app_rel id_lt P0 (x :: S)); [exact Hs|exact Ha|left; reflexivity]).
      apply Z.ltb_ge. unfold id_lt in H'. lia.
  - subst P. simpl. apply DeleteFacts.filter_all_true. reflexivity.
Qed.

(** *** Following [next_cursor] *)

Lemma follow_cursor_suffix (db : DB) (lim : nat) :
  (1 <= lim)%nat ->
  StronglySorted id_lt (order_by_id (filter live (projetos db))) ->
  forall fuel P S cursor,
    order_by_id (filter live (projetos db)) = P ++ S ->
    cursor_ok cursor P ->
    (List.length S < fuel)%nat ->
    follow_cursor fuel db cursor lim None None = map _to_domain S.
Proof.
  intros Hlim Hs fuel. induction fuel as [|f IH]; intros P S cursor HL Hc Hlen; [lia|].
  simpl. rewrite get_with_cursor_eq. cbv zeta.
  assert (Hs' : StronglySorted id_lt (P ++ S)) by (rewrite <- HL; exact Hs).
  rewrite HL, (filter_cursor_suffix cursor P S Hs' Hc).
  destruct (Nat.ltb lim (List.length S)) eqn:E.
  - apply Nat.ltb_lt in E.
    assert (Hk : List.length (firstn lim S) = lim) by (rewrite length_firstn; lia).
    destruct (rev (firstn lim S)) as [|last tl] eqn:R.
    + exfalso. apply (f_equal (@List.length ProjectRow)) in R.
      rewrite length_rev, Hk in R. simpl in R. lia.
    + rewrite (IH (P ++ firstn lim S) (skipn lim S) (Some (p_id last))).
      * rewrite <- map_app, firstn_skipn. reflexivity.
      * rewrite HL, <- app_assoc, firstn_skipn. reflexivity.
      * exists (P ++ rev tl), last. split; [|reflexivity].
        rewrite <- app_assoc. f_equal.
        rewrite <- (rev_involutive (firstn lim S)), R. reflexivity.
      * rewrite length_skipn. lia.
  - reflexivity.
Qed.

(** C2 (as amended): for every page size [limit >= 1], over a table with
    distinct ids (the primary key), calling [get_with_cursor] without a
    cursor and then with each returned [next_cursor] until it is [None]
    returns the live rows, each exactly once, in strictly increasing id
    order; the result does not depend on how many calls are allowed
    beyond the number of rows, so the loop ends by [next_cursor = None]. *)
Theorem cursor_pagination_complete (db : DB) (limit : nat) :
  (1 <= limit)%nat ->
  NoDup (map p_id (projetos db)) ->
  exists rows,
    Permutation rows (filter live (projetos db)) /\
    StronglySorted (fun a b => p_id a < p_id b) rows /\
    forall fuel, (List.length (projetos db) < fuel)%nat ->
      follow_cursor fuel db None limit None None = map _to_domain rows.
Proof.
  intros Hlim Hnd.
  set (L := order_by_id (filter live (projetos db))).
  assert (Hs : StronglySorted id_lt L).
  { apply sorted_nodup_strict; [apply order_by_id_sorted|].
    apply (Permutation_NoDup (Permutation_map p_id (Permutation_sym (order_by_id_perm _)))).
    apply nodup_map_filter; exact Hnd. }
  exists L. split; [apply order_by_id_perm|split; [exact Hs|]].
  intros fuel Hf. apply (follow_cursor_suffix db limit Hlim Hs fuel [] L None).
  - reflexivity.
  - reflexivity.
  - unfold L. rewrite (Permutation_length (order_by_id_perm _)).
    pose proof (filter_length_le live (projetos db)). lia.
Qed.

(** C2 at a concrete input: five rows, page size 2. *)
Lemma cursor_pagination_complete_witness :
  exists rows,
    Permutation rows (filter live (projetos (Fixtures.db_of_rows (Fixtures.rows_upto 5)))) /\
    StronglySorted (fun a b => p_id a < p_id b) rows /\
    forall fuel, (List.length (projetos (Fixtures.db_of_rows (Fixtures.rows_upto 5))) < fuel)%nat ->
      follow_cursor fuel (Fixtures.db_of_rows (Fixtures.rows_upto 5)) None 2 None None
      = map _to_domain rows.
Proof.
  apply (cursor_pagination_complete (Fixtures.db_of_rows (Fixtures.rows_upto 5)) 2).
  - lia.
  - vm_compute. repeat constructor; simpl; intuition discriminate.
Defined.

(** C2 as stated fails for page size 0: the first call already returns
    an empty page and no cursor although a live row exists. *)
Lemma cursor_page_size_zero_returns_nothing :
  get_with_cursor (Fixtures.db_of_rows [Fixtures.row 1 1]) None 0 None None = ([], None) /\
  filter live (projetos (Fixtures.db_of_rows [Fixtures.row 1 1])) <> [].
Proof. split; [vm_compute; reflexivity|vm_compute; discriminate]. Qed.

End CursorFacts.

Module UoWFacts.
Import ProjectEntity Schema Repo UoW ProofDefs.

Lemma projects_clean n u :
  clean_scope n u ->
  exists u1, projects u = (Ok n, u1) /\ clean_scope n u1 /\ database u1 = database u.
Proof.
  intros [Hs [Hp|Hp]]; unfold projects; rewrite Hp.
  - rewrite Hs. eexists; split; [reflexivity|]. split; [|reflexivity].
    split; [exact Hs|right; reflexivity].
  - eexists; split; [reflexivity|]. split; [split; [exact Hs|right; exact Hp]|reflexivity].
Qed.

Lemma repo_save_clean n u p now :
  clean_scope n u -> id p = None ->
  exists saved u1,
    repo_call n (Session.save p now) u = (Ok saved, u1) /\ clean_scope n u1 /\
    projetos (database u1) =
      projetos (database u) ++ [_to_orm p (Session.next_id (projetos (database u))) now].
Proof.
  intros [Hs Hp] Hid. unfold repo_call. rewrite Hs, Nat.eqb_refl.
  unfold Session.save. rewrite Hid. simpl.
  eexists; eexists; split; [reflexivity|]. split; [|reflexivity].
  split; [reflexivity|exact Hp].
Qed.

Lemma save_all_clean ps now : forall n u,
  clean_scope n u -> Forall (fun p => id p = None) ps ->
  exists saved u1, save_all ps now u = (Ok saved, u1) /\ clean_scope n u1 /\
    exists rows, projetos (database u1) = projetos (database u) ++ rows /\
                 List.length rows = List.length ps /\
                 Forall (fun r => live r = true) rows.
Proof.
  induction ps as [|p t IH]; intros n u Hc Hids.
  - exists [], u. split; [reflexivity|]. split; [exact Hc|].
    exists []. rewrite app_nil_r. repeat split; constructor.
  - inversion Hids as [|? ? Hid Hids']; subst.
    destruct (projects_clean n u Hc) as [u1 [Hp1 [Hc1 Hd1]]].
    destruct (repo_save_clean n u1 p now Hc1 Hid) as [s1 [u2 [Hs2 [Hc2 Hd2]]]].
    destruct (IH n u2 Hc2 Hids') as [rest [u3 [Hs3 [Hc3 [rows [Hd3 [Hl3 Hlive3]]]]]]].
    exists (s1 :: rest), u3. simpl. unfold bind. rewrite Hp1, Hs2, Hs3.
    split; [reflexivity|]. split; [exact Hc3|].
    exists (_to_orm p (Session.next_id (projetos (database u1))) now :: rows).
    split; [rewrite Hd3, Hd2, Hd1, <- app_assoc; reflexivity|].
    split; [simpl; rewrite Hl3; reflexivity|].
    constructor; [reflexivity|exact Hlive3].
Qed.

(** C1 does not hold: [SQLAlchemyProjectRepository.save] commits the
    shared session itself, so after N saves in one [with] block followed
    by a failure before [uow.commit()], the block raises the failure but
    the committed database already holds N new live rows. *)
Theorem saves_committed_before_failure (db : DB) (ps : list Project) (now : Z) :
  Forall (fun p => id p = None) ps ->
  fst (with_uow (saves_then_failure ps now) (new_uow db)) = Raise InjectedError /\
  exists rows,
    projetos (database (snd (with_uow (saves_then_failure ps now) (new_uow db))))
      = projetos db ++ rows /\
    List.length rows = List.length ps /\
    Forall (fun r => live r = true) rows.
Proof.
  intros Hids. unfold with_uow.
  destruct (enter (new_uow db)) as [r0 u0] eqn:Ee.
  assert (Hc : clean_scope 0 u0 /\ database u0 = db)
    by (unfold enter in Ee; inversion Ee; subst; split; [split; [reflexivity|left; reflexivity]|reflexivity]).
  destruct Hc as [Hc Hd0].
  destruct (save_all_clean ps now 0 _ Hc Hids) as [saved [u1 [Hs [[Hs1 _] Hd]]]].
  unfold saves_then_failure, bind. rewrite Hs. simpl. unfold bind, rollback. rewrite Hs1. simpl.
  split; [reflexivity|]. rewrite <- Hd0. exact Hd.
Qed.

(** C1 at a concrete input: two new projects saved, then a failure before
    [commit()]; a fresh scope lists both. *)
Lemma saves_committed_before_failure_witness :
  fst (with_uow (saves_then_failure [Fixtures.new_project "A"; Fixtures.new_project "B"] 0)
                (new_uow Fixtures.empty_db)) = Raise InjectedError /\
  List.length
    (match fst (fresh_scope_listing 100
                  (new_uow (database (snd (with_uow
                     (saves_then_failure [Fixtures.new_project "A"; Fixtures.new_project "B"] 0)
                     (new_uow Fixtures.empty_db))))))
     with Ok l => l | Raise _ => [] end) = 2%nat /\
  exists rows,
    projetos (database (snd (with_uow
       (saves_then_failure [Fixtures.new_project "A"; Fixtures.new_project "B"] 0)
       (new_uow Fixtures.empty_db)))) = projetos Fixtures.empty_db ++ rows /\
    List.length rows = 2%nat /\ Forall (fun r => live r = true) rows.
Proof.
  split; [vm_compute; reflexivity|split; [vm_compute; reflexivity|]].
  apply (saves_committed_before_failure Fixtures.empty_db
           [Fixtures.new_project "A"; Fixtures.new_project "B"] 0).
  repeat constructor.
Defined.

(** C5 does not hold: after a [with] block in which [uow.projects] was
    read, the session is closed, yet [uow.projects] returns the cached
    repository instead of raising, and that repository still writes to
    the database; [commit], [rollback] and [flush] do raise
    [RuntimeError] there, and [projects] raises on a unit of work that
    was never entered. *)
Theorem projects_after_exit_not_rejected :
  let u := snd (with_uow (projects ;;; ret tt) (new_uow Fixtures.empty_db)) in
  _session u = None /\
  projects u = (Ok 0%nat, u) /\
  fst (commit u) = Raise RuntimeError /\
  fst (rollback u) = Raise RuntimeError /\
  fst (flush u) = Raise RuntimeError /\
  fst (projects (new_uow Fixtures.empty_db)) = Raise RuntimeError /\
  List.length (projetos (database
    (snd ((r <- projects ;; repo_call r (Session.save (Fixtures.new_project "A") 0)) u)))) = 1%nat.
Proof. vm_compute. repeat split. Qed.

End UoWFacts.

Module EntityExtra.
Import ProjectEntity ProofDefs.

(** X1: [start] succeeds exactly from [PLANEJAMENTO] and [PAUSADO] and
    then only sets the status to [EM_ANDAMENTO]; [pause] succeeds exactly
    from [EM_ANDAMENTO] and then only sets the status to [PAUSADO]; when
    either raises, it raises [InvalidStateTransitionError] and leaves the
    project unchanged. *)
Theorem start_pause_transitions :
  (forall p, fst (start p) = Ok tt <-> status p = PLANEJAMENTO \/ status p = PAUSADO) /\
  (forall p, fst (start p) = Ok tt -> snd (start p) = set_status p EM_ANDAMENTO) /\
  (forall p, fst (start p) <> Ok tt ->
     start p = (Raise InvalidStateTransitionError, p)) /\
  (forall p, fst (pause p) = Ok tt <-> status p = EM_ANDAMENTO) /\
  (forall p, fst (pause p) = Ok tt -> snd (pause p) = set_status p PAUSADO) /\
  (forall p, fst (pause p) <> Ok tt ->
     pause p = (Raise InvalidStateTransitionError, p)).
Proof.
  split; [|split; [|split; [|split; [|split]]]]; intros p;
    unfold start, pause; destruct (status p); simpl;
    try (split; intros H; [discriminate|]); intuition congruence.
Qed.

Lemma run_call_concluido p c :
  status p = CONCLUIDO -> exists e, run_call p c = (Raise e, p).
Proof.
  intros H. destruct c; simpl;
    unfold start, pause, complete, cancel, update_details, is_modifiable;
    rewrite H; simpl; eauto.
Qed.

Lemma run_call_cancelado p c :
  status p = CANCELADO ->
  exists o, snd (run_call p c) = set_observations p o.
Proof.
  intros H. destruct p as [i n d sd ep ea st cl rs ob ev ca ua da]; simpl in H; subst st.
  destruct c; simpl;
    unfold start, pause, complete, cancel, update_details, is_modifiable; simpl;
    try (exists ob; reflexivity).
  destruct (str_truthy reason); simpl; eexists; reflexivity.
Qed.

(** X2: [CONCLUIDO] and [CANCELADO] are final. On a completed project
    every state-changing method raises and changes nothing, so any
    sequence of calls (exceptions caught) leaves it as it was; on a
    cancelled project a sequence of calls can only change the
    observations (through [cancel]) and the status stays [CANCELADO]. *)
Theorem final_statuses (p : Project) (cs : list call) :
  (status p = CONCLUIDO ->
     run_calls p cs = p /\ forall c, fst (run_call p c) <> Ok tt) /\
  (status p = CANCELADO ->
     exists o, run_calls p cs = set_observations p o).
Proof.
  split.
  - intros H. split.
    + revert p H. induction cs as [|c t IH]; intros p H; simpl; [reflexivity|].
      destruct (run_call_concluido p c H) as [e Hc]. rewrite Hc. simpl. apply IH; exact H.
    + intros c. destruct (run_call_concluido p c H) as [e Hc]. rewrite Hc. discriminate.
  - intros H. assert (Hq : exists o, p = set_observations p o)
      by (exists (observations p); destruct p; reflexivity).
    revert Hq. generalize p at 1 3. induction cs as [|c t IH]; intros q [o Hq]; simpl.
    + exists o; exact Hq.
    + apply IH. subst q.
      assert (Hs : status (set_observations p o) = CANCELADO) by exact H.
      destruct (run_call_cancelado _ c Hs) as [o' Ho']. rewrite Ho'.
      exists o'. destruct p; reflexivity.
Qed.

(** X3: on a modifiable project, [update_details] given a planned end
    date before the start date raises [BusinessRuleViolationError] after
    it has already applied the new name, the new description and the
    rejected planned end date to the object; only the observations and
    the estimated value are left as they were. *)
Theorem update_details_rejected_date_partial (p : Project) n d e o v :
  is_modifiable p = true -> e < start_date p ->
  let r := update_details p n d (Some e) o v in
  fst r = Raise BusinessRuleViolationError /\
  name (snd r) = match n with Some x => x | None => name p end /\
  description (snd r) = match d with Some x => Some x | None => description p end /\
  end_date_planned (snd r) = Some e /\
  observations (snd r) = observations p /\
  estimated_value (snd r) = estimated_value p /\
  status (snd r) = status p.
Proof.
  intros Hm Hlt. unfold update_details. rewrite Hm. simpl.
  assert (Hl : (e <? start_date p) = true) by (apply Z.ltb_lt; exact Hlt).
  destruct n; destruct d; simpl; unfold _validate_dates; simpl; rewrite Hl;
    repeat split.
Qed.

(** X4: [update_details] only ever changes the name, description,
    planned end date, observations and estimated value: id, status,
    dates other than the planned end, client, responsible user and audit
    fields are kept whether it succeeds or raises. On a completed or
    cancelled project it raises [BusinessRuleViolationError] and changes
    nothing; on any other project a call with no argument changes
    nothing and succeeds. *)
Theorem update_details_frame (p : Project) n d e o v :
  let q := snd (update_details p n d e o v) in
  (id q = id p /\ status q = status p /\ start_date q = start_date p /\
   end_date_actual q = end_date_actual p /\ client_id q = client_id p /\
   responsible_user_id q = responsible_user_id p /\ created_at q = created_at p /\
   updated_at q = updated_at p /\ deleted_at q = deleted_at p) /\
  (is_modifiable p = false ->
     update_details p n d e o v = (Raise BusinessRuleViolationError, p)) /\
  (is_modifiable p = true -> update_details p None None None None None = (Ok tt, p)).
Proof.
  split; [|split].
  - unfold update_details. destruct (is_modifiable p); simpl; [|repeat split].
    destruct e as [e|].
    + destruct (_validate_dates _); simpl;
        destruct o; destruct v; destruct n; destruct d; repeat split.
    + destruct o; destruct v; destruct n; destruct d; repeat split.
  - intros H. unfold update_details. rewrite H. reflexivity.
  - intros H. unfold update_details. rewrite H. reflexivity.
Qed.

Lemma update_details_rejected_date_partial_witness :
  is_modifiable (Fixtures.planning_project None) = true /\
  50 < start_date (Fixtures.planning_project None) /\
  let r := update_details (Fixtures.planning_project None) (Some "Q"%string) None (Some 50)
             (Some "obs"%string) None in
  fst r = Raise BusinessRuleViolationError /\
  name (snd r) = "Q"%string /\
  description (snd r) = description (Fixtures.planning_project None) /\
  end_date_planned (snd r) = Some 50 /\
  observations (snd r) = observations (Fixtures.planning_project None) /\
  estimated_value (snd r) = estimated_value (Fixtures.planning_project None) /\
  status (snd r) = status (Fixtures.planning_project None).
Proof.
  split; [reflexivity|]. split; [vm_compute; reflexivity|].
  exact (update_details_rejected_date_partial (Fixtures.planning_project None)
           (Some "Q"%string) None 50 (Some "obs"%string) None eq_refl eq_refl).
Defined.

(** X5: [duration_days] is [None] as long as [end_date_actual] is unset;
    after a successful [complete] it is the completion date (or today)
    minus the start date. [complete] does not compare the completion date
    with the start date, so the duration can be negative. *)
Theorem duration_days_after_complete :
  (forall p, end_date_actual p = None -> duration_days p = None) /\
  (forall p d today, fst (complete p d today) = Ok tt ->
     duration_days (snd (complete p d today)) =
       Some (match d with Some x => x | None => today end - start_date p)) /\
  (exists p d today, fst (complete p (Some d) today) = Ok tt /\
     duration_days (snd (complete p (Some d) today)) = Some (d - start_date p) /\
     d - start_date p < 0).
Proof.
  split; [|split].
  - intros p H. unfold duration_days. rewrite H. reflexivity.
  - intros p d today. unfold complete.
    destruct (status_eqb (status p) EM_ANDAMENTO); simpl; [|discriminate].
    intros _. reflexivity.
  - exists (set_status (Fixtures.planning_project None) EM_ANDAMENTO), 90, 0.
    vm_compute. split; [reflexivity|]. split; [reflexivity|reflexivity].
Qed.

(** X6: [is_overdue] holds exactly for a non-deleted [EM_ANDAMENTO]
    project whose planned end date lies before today (a project without
    a planned end date is never overdue); a successful [pause],
    [complete] or [cancel] makes it false whatever the date. *)
Theorem is_overdue_spec :
  (forall p today, is_overdue p today = true <->
     status p = EM_ANDAMENTO /\ deleted_at p = None /\
     exists e, end_date_planned p = Some e /\ e < today) /\
  (forall p today, fst (pause p) = Ok tt -> is_overdue (snd (pause p)) today = false) /\
  (forall p d t today, fst (complete p d t) = Ok tt ->
     is_overdue (snd (complete p d t)) today = false) /\
  (forall p r today, fst (cancel p r) = Ok tt -> is_overdue (snd (cancel p r)) today = false).
Proof.
  split; [|split; [|split]].
  - intros p today. unfold is_overdue, is_active.
    destruct (end_date_planned p) as [e|];
      [|split; [discriminate|intros [_ [_ [e [He _]]]]; discriminate]].
    destruct (status p) eqn:S; destruct (deleted_at p) eqn:D; simpl;
      split; try discriminate; try (intros [H1 [H2 _]]; discriminate).
    + intros H. split; [reflexivity|]. split; [reflexivity|].
      exists e. split; [reflexivity|]. apply Z.ltb_lt; exact H.
    + intros [_ [_ [e' [He' Hlt]]]]. injection He' as <-. apply Z.ltb_lt; exact Hlt.
  - intros p today. unfold pause.
    destruct (status_eqb (status p) EM_ANDAMENTO); simpl; [|discriminate].
    intros _. unfold is_overdue; simpl. destruct (end_date_planned p); reflexivity.
  - intros p d t today. unfold complete.
    destruct (status_eqb (status p) EM_ANDAMENTO); simpl; [|discriminate].
    intros _. unfold is_overdue; simpl. destruct (end_date_planned p); reflexivity.
  - intros p r today. unfold cancel.
    destruct (status_eqb (status p) CONCLUIDO); simpl; [discriminate|].
    intros _. unfold is_overdue; simpl. destruct (str_truthy r); simpl;
      destruct (end_date_planned p); reflexivity.
Qed.

(** X7: [__eq__] compares ids only: two projects are equal exactly when
    both have the same id, whatever their other fields, and never when
    the left one is unsaved ([id is None]); an unsaved project is not
    even equal to itself. It is symmetric and transitive, and a
    non-[Project] operand is never equal. *)
Theorem project_eq_by_id :
  (forall p q, __eq__ p (PyProject q) = true <-> exists i, id p = Some i /\ id q = Some i) /\
  (forall p, __eq__ p (PyProject p) = true <-> id p <> None) /\
  (forall p q, __eq__ p (PyProject q) = __eq__ q (PyProject p)) /\
  (forall p q r, __eq__ p (PyProject q) = true -> __eq__ q (PyProject r) = true ->
     __eq__ p (PyProject r) = true) /\
  (forall p, __eq__ p PyOther = false).
Proof.
  split; [|split; [|split; [|split]]].
  - intros p q. unfold __eq__. destruct (id p) as [i|], (id q) as [j|].
    + split.
      * intros H. apply Z.eqb_eq in H. subst. eauto.
      * intros [k [H1 H2]]. injection H1 as ->. injection H2 as ->. apply Z.eqb_refl.
    + split; [discriminate|intros [k [_ H]]; discriminate].
    + split; [discriminate|intros [k [H _]]; discriminate].
    + split; [discriminate|intros [k [H _]]; discriminate].
  - intros p. unfold __eq__. destruct (id p) as [i|].
    + rewrite Z.eqb_refl. split; intros _; [discriminate|reflexivity].
    + split; [discriminate|intros H; exfalso; apply H; reflexivity].
  - intros p q. unfold __eq__. destruct (id p) as [i|], (id q) as [j|]; try reflexivity.
    apply Z.eqb_sym.
  - intros p q r. unfold __eq__. destruct (id p) as [i|], (id q) as [j|], (id r) as [k|];
      try discriminate.
    rewrite !Z.eqb_eq. congruence.
  - intros p. reflexivity.
Qed.

End EntityExtra.

Module RepoExtra.
Import ProjectEntity Schema Repo Session ProofDefs.

Lemma live_none r : live r = true <-> p_deleted_at r = None.
Proof. unfold live; destruct (p_deleted_at r); split; congruence. Qed.

Lemma find_live_id (l : list ProjectRow) i :
  (exists r, find (fun r => Z.eqb (p_id r) i && live r) l = Some r /\
             In r l /\ p_id r = i /\ live r = true) \/
  (find (fun r => Z.eqb (p_id r) i && live r) l = None /\
   forall r, In r l -> p_id r = i -> live r = false).
Proof.
  destruct (find (fun r => Z.eqb (p_id r) i && live r) l) as [r|] eqn:F.
  - left. exists r. apply find_some in F. destruct F as [Hin Hf].
    apply andb_true_iff in Hf. destruct Hf as [Hi Hl]. apply Z.eqb_eq in Hi. auto.
  - right. split; [reflexivity|]. intros r Hin Hi.
    pose proof (find_none _ _ F r Hin) as Hf. simpl in Hf.
    rewrite Hi, Z.eqb_refl in Hf. exact Hf.
Qed.

(** X8: [get_by_id] returns the stored project with the requested id,
    never a soft-deleted one ([deleted_at] set): it returns [None] exactly
    when every row with that id is soft-deleted (or there is none), and
    [exists] is true exactly when a live row with that id is stored. *)
Theorem get_by_id_live_only (db : DB) (i : Z) :
  (get_by_id db i = None <-> forall r, In r (projetos db) -> p_id r = i -> live r = false) /\
  (forall p, get_by_id db i = Some p ->
     id p = Some i /\ deleted_at p = None /\ exists r, In r (projetos db) /\ p = _to_domain r) /\
  (exists_ db i = true <-> exists r, In r (projetos db) /\ p_id r = i /\ live r = true).
Proof.
  unfold exists_, get_by_id.
  destruct (find_live_id (projetos db) i) as [[r [F [Hin [Hi Hl]]]]|[F Hn]]; rewrite F.
  - split; [|split].
    + split; [discriminate|]. intros H. rewrite (H r Hin Hi) in Hl. discriminate.
    + intros p Hp. injection Hp as <-. simpl. rewrite Hi.
      split; [reflexivity|]. split; [apply live_none; exact Hl|]. eauto.
    + split; [intros _; eauto|reflexivity].
  - split; [|split].
    + split; [intros _; exact Hn|reflexivity].
    + discriminate.
    + split; [discriminate|]. intros [r [Hin [Hi Hl]]]. rewrite (Hn r Hin Hi) in Hl. discriminate.
Qed.








Lemma delete_swork pid s :
  swork (snd (delete pid s)) = del_project pid (run_statements (dependent_statements pid) (swork s)).
Proof. unfold delete. destruct (Nat.eqb _ 0); reflexivity. Qed.

Lemma delete_removes_rows pid s :
  forall r, In r (projetos (swork (snd (delete pid s)))) -> p_id r <> pid.
Proof.
  intros r Hr. rewrite delete_swork in Hr. unfold del_project in Hr. simpl in Hr.
  apply filter_In in Hr. destruct Hr as [_ Hr]. apply negb_true_iff, Z.eqb_neq in Hr. exact Hr.
Qed.

Lemma get_by_id_absent (db : DB) i :
  (forall r, In r (projetos db) -> p_id r <> i) -> get_by_id db i = None.
Proof.
  intros H. unfold get_by_id.
  destruct (find_live_id (projetos db) i) as [[r [F [Hin [Hi _]]]]|[F _]]; rewrite F;
    [exfalso; exact (H r Hin Hi)|reflexivity].
Qed.

(** X11: after [delete pid], whatever it returned, the session's view
    holds no row with id [pid], so [get_by_id pid] is [None]; when it
    returned [True] this is committed and [exists pid] is false; and a
    second [delete pid] on the same session returns [False]. *)
Theorem delete_then_absent (pid : Z) (s : Sess) :
  get_by_id (swork (snd (delete pid s))) pid = None /\
  (fst (delete pid s) = Ok true ->
     sdb (snd (delete pid s)) = swork (snd (delete pid s)) /\
     exists_ (sdb (snd (delete pid s))) pid = false) /\
  fst (delete pid (snd (delete pid s))) = Ok false.
Proof.
  split; [|split].
  - apply get_by_id_absent, delete_removes_rows.
  - intros H. pose proof (delete_removes_rows pid s) as Hr. revert H Hr.
    unfold delete. destruct (Nat.eqb _ 0); [discriminate|]. intros _ Hr. simpl in *.
    split; [reflexivity|]. unfold exists_.
    rewrite get_by_id_absent; [reflexivity|exact Hr].
  - unfold delete at 1. unfold project_rowcount.
    assert (Hp : projetos (run_statements (dependent_statements pid) (swork (snd (delete pid s))))
                 = projetos (swork (snd (delete pid s)))) by reflexivity.
    rewrite Hp, DeleteFacts.filter_all_false; [reflexivity|].
    intros r Hr. apply Z.eqb_neq. exact (delete_removes_rows pid s r Hr).
Qed.

Lemma overdue_filter_is_overdue today r :
  overdue_filter today r = is_overdue (_to_domain r) today.
Proof.
  unfold overdue_filter, is_overdue, is_active, live. simpl.
  destruct (data_fim_prevista r) as [e|]; destruct (p_status r); destruct (p_deleted_at r);
    simpl; rewrite ?andb_true_r, ?andb_false_r; reflexivity.
Qed.

(** X12: [get_overdue_projects] (the repository query) returns exactly
    the stored projects whose entity [is_overdue] holds for the same
    [today]: a live [EM_ANDAMENTO] row with a planned end date before
    today. Rows without a planned end date are never returned, and there
    is no limit on the result. *)
Theorem get_overdue_projects_agrees (db : DB) (today : Z) (p : Project) :
  In p (get_overdue_projects db today) <->
  exists r, In r (projetos db) /\ p = _to_domain r /\ is_overdue p today = true.
Proof.
  unfold get_overdue_projects. rewrite in_map_iff. split.
  - intros [r [<- Hr]]. apply filter_In in Hr. destruct Hr as [Hin Hf].
    exists r. split; [exact Hin|]. split; [reflexivity|].
    rewrite <- overdue_filter_is_overdue. exact Hf.
  - intros [r [Hin [-> Ho]]]. exists r. split; [reflexivity|].
    apply filter_In. split; [exact Hin|]. rewrite overdue_filter_is_overdue. exact Ho.
Qed.

Lemma in_firstn {A} n (l : list A) x : In x (firstn n l) -> In x l.
Proof. intros H. rewrite <- (firstn_skipn n l). apply in_or_app. left. exact H. Qed.

Lemma filter_filter_andb {A} (f g : A -> bool) l :
  filter f (filter g l) = filter (fun x => g x && f x) l.
Proof.
  induction l as [|a t IH]; simpl; [reflexivity|].
  destruct (g a); simpl; [destruct (f a); simpl; rewrite IH; reflexivity|exact IH].
Qed.

Lemma filter_length_mono {A} (f g : A -> bool) l :
  (forall x, f x = true -> g x = true) ->
  (List.length (filter f l) <= List.length (filter g l))%nat.
Proof.
  intros H. induction l as [|a t IH]; simpl; [lia|].
  destruct (f a) eqn:E; [rewrite (H a E); simpl; lia|].
  destruct (g a); simpl; lia.
Qed.

Lemma active_rows (db : DB) :
  get_active_projects db =
  map _to_domain (firstn 1000 (filter (fun r => live r && status_eqb (p_status r) EM_ANDAMENTO)
                                      (projetos db))).
Proof.
  unfold get_active_projects, get_all. simpl skipn.
  rewrite (DeleteFacts.filter_all_true (responsible_filter db None))
    by (intros; reflexivity).
  rewrite (DeleteFacts.filter_all_true (client_filter None)) by (intros; reflexivity).
  rewrite filter_filter_andb. reflexivity.
Qed.

Lemma active_length (db : DB) :
  List.length (get_active_projects db) = Nat.min 1000 (count_by_status db EM_ANDAMENTO).
Proof.
  rewrite active_rows, length_map, length_firstn. unfold count_by_status.
  rewrite filter_filter_andb. f_equal. f_equal. apply filter_ext.
  intros r. apply andb_comm.
Qed.

(** X13: [get_active_projects] returns only stored projects for which
    the entity's [is_active] holds, and as many of them as
    [count_by_status(EM_ANDAMENTO)] counts, up to its fixed limit of
    1000: beyond 1000 active projects the list is truncated. *)
Theorem get_active_projects_spec (db : DB) :
  (forall p, In p (get_active_projects db) ->
     is_active p = true /\ exists r, In r (projetos db) /\ p = _to_domain r) /\
  List.length (get_active_projects db) = Nat.min 1000 (count_by_status db EM_ANDAMENTO).
Proof.
  split; [|apply active_length].
  intros p Hp. rewrite active_rows, in_map_iff in Hp. destruct Hp as [r [<- Hr]].
  apply in_firstn in Hr. apply filter_In in Hr. destruct Hr as [Hin Hf].
  apply andb_true_iff in Hf. destruct Hf as [Hl Hs].
  split; [|exists r; auto].
  unfold is_active. simpl. rewrite Hs. apply live_none in Hl. rewrite Hl. reflexivity.
Qed.

Lemma get_orm_some (db : DB) pid r :
  In r (projetos db) -> p_id r = pid -> exists r0, get_orm_project db pid = Some r0.
Proof.
  intros Hin Hi. unfold get_orm_project.
  destruct (find (fun r => Z.eqb (p_id r) pid) (projetos db)) as [r0|] eqn:F; [eauto|].
  pose proof (find_none _ _ F r Hin) as H. simpl in H. rewrite Hi, Z.eqb_refl in H. discriminate.
Qed.

Lemma get_orm_none (db : DB) pid :
  (forall r, In r (projetos db) -> p_id r <> pid) -> get_orm_project db pid = None.
Proof.
  intros H. unfold get_orm_project.
  destruct (find (fun r => Z.eqb (p_id r) pid) (projetos db)) as [r0|] eqn:F; [|reflexivity].
  apply find_some in F. destruct F as [Hin Hf]. apply Z.eqb_eq in Hf. exfalso; exact (H r0 Hin Hf).
Qed.

Lemma is_contributor_appended (db : DB) pid uid :
  is_contributor (with_contributors db (project_contributors db ++ [mkContributor pid uid])) pid uid
  = true.
Proof.
  unfold is_contributor. simpl. rewrite existsb_app. simpl. rewrite !Z.eqb_refl.
  simpl. apply orb_true_r.
Qed.

Lemma get_contributors_in (db : DB) pid uid r0 :
  get_orm_project db pid = Some r0 -> is_contributor db pid uid = true ->
  exists us, get_contributors db pid = Ok us /\ In uid us.
Proof.
  intros Hg Hc. unfold get_contributors. rewrite Hg. eexists. split; [reflexivity|].
  unfold is_contributor in Hc. apply existsb_exists in Hc. destruct Hc as [c [Hin Hc]].
  apply andb_true_iff in Hc. destruct Hc as [Hp Hu]. apply Z.eqb_eq in Hp, Hu.
  apply in_map_iff. exists c. split; [exact Hu|]. apply filter_In. split; [exact Hin|].
  apply Z.eqb_eq; exact Hp.
Qed.

Lemma add_contributor_present usuarios pid uid s r0 :
  get_orm_project (swork s) pid = Some r0 -> Z_in uid usuarios = true ->
  is_contributor (swork s) pid uid = true ->
  add_contributor usuarios pid uid s = (Ok tt, s).
Proof. intros Hg Hu Hc. unfold add_contributor. rewrite Hg, Hu, Hc. reflexivity. Qed.

(** X14: for an existing project row (soft-deleted ones included, as
    [query.get] ignores [deleted_at]) and an existing user,
    [add_contributor] succeeds and afterwards the user is a contributor,
    listed by [get_contributors]. If it was not one before, exactly one
    association row is appended and committed; a second identical call
    changes nothing. *)
Theorem add_contributor_spec (usuarios : list Z) (pid uid : Z) (s : Sess) :
  (exists r, In r (projetos (swork s)) /\ p_id r = pid) ->
  Z_in uid usuarios = true ->
  fst (add_contributor usuarios pid uid s) = Ok tt /\
  is_contributor (swork (snd (add_contributor usuarios pid uid s))) pid uid = true /\
  (exists us, get_contributors (swork (snd (add_contributor usuarios pid uid s))) pid = Ok us /\
              In uid us) /\
  add_contributor usuarios pid uid (snd (add_contributor usuarios pid uid s)) =
    (Ok tt, snd (add_contributor usuarios pid uid s)) /\
  (is_contributor (swork s) pid uid = false ->
     sdb (snd (add_contributor usuarios pid uid s)) =
       swork (snd (add_contributor usuarios pid uid s)) /\
     project_contributors (swork (snd (add_contributor usuarios pid uid s))) =
       project_contributors (swork s) ++ [mkContributor pid uid]).
Proof.
  intros [r [Hin Hi]] Hu. destruct (get_orm_some _ _ _ Hin Hi) as [r0 Hg].
  destruct (is_contributor (swork s) pid uid) eqn:Ec.
  - rewrite (add_contributor_present _ _ _ _ _ Hg Hu Ec). simpl.
    split; [reflexivity|]. split; [exact Ec|]. split; [exact (get_contributors_in _ _ _ _ Hg Ec)|].
    split; [exact (add_contributor_present _ _ _ _ _ Hg Hu Ec)|]. discriminate.
  - assert (Ha : add_contributor usuarios pid uid s =
              (Ok tt, commit {| sdb := sdb s;
                                swork := with_contributors (swork s)
                                  (project_contributors (swork s) ++ [mkContributor pid uid]) |}))
      by (unfold add_contributor; rewrite Hg, Hu, Ec; reflexivity).
    rewrite Ha. simpl.
    pose proof (is_contributor_appended (swork s) pid uid) as Hc.
    split; [reflexivity|]. split; [exact Hc|].
    split; [apply (get_contributors_in _ _ _ r0); [exact Hg|exact Hc]|].
    split; [|intros _; split; reflexivity].
    apply (add_contributor_present _ _ _ _ r0); [exact Hg|exact Hu|exact Hc].
Qed.

Lemma add_contributor_spec_witness :
  (exists r, In r (projetos Fixtures.two_projects_db) /\ p_id r = 1) /\
  Z_in 8 [7; 8] = true /\
  fst (add_contributor [7; 8] 1 8
         {| sdb := Fixtures.two_projects_db; swork := Fixtures.two_projects_db |}) = Ok tt /\
  is_contributor (swork (snd (add_contributor [7; 8] 1 8
         {| sdb := Fixtures.two_projects_db; swork := Fixtures.two_projects_db |}))) 1 8 = true.
Proof.
  assert (Hr : exists r, In r (projetos Fixtures.two_projects_db) /\ p_id r = 1)
    by (exists (Fixtures.row 1 1); split; [left; reflexivity|reflexivity]).
  split; [exact Hr|]. split; [reflexivity|].
  destruct (add_contributor_spec [7; 8] 1 8
              {| sdb := Fixtures.two_projects_db; swork := Fixtures.two_projects_db |}
              Hr eq_refl) as [H1 [H2 _]].
  split; [exact H1|exact H2].
Defined.

(** X15: when the project row does not exist, or the user does not,
    [add_contributor] and [remove_contributor] raise [RepositoryError]
    (the [ProjectNotFoundError] raised inside is caught and wrapped) after
    rolling the session back, which discards every uncommitted statement
    of the session, not only their own; [get_contributors] on a missing
    project raises [RepositoryError] as well. *)
Theorem contributor_errors_roll_back (usuarios : list Z) (pid uid : Z) (s : Sess) :
  ((forall r, In r (projetos (swork s)) -> p_id r <> pid) \/ Z_in uid usuarios = false) ->
  add_contributor usuarios pid uid s = (Raise RepositoryError, rollback s) /\
  remove_contributor usuarios pid uid s = (Raise RepositoryError, rollback s) /\
  ((forall r, In r (projetos (swork s)) -> p_id r <> pid) ->
     get_contributors (swork s) pid = Raise RepositoryError).
Proof.
  intros H. split; [|split].
  - unfold add_contributor. destruct H as [H|H].
    + rewrite (get_orm_none _ _ H). reflexivity.
    + destruct (get_orm_project (swork s) pid); [rewrite H; reflexivity|reflexivity].
  - unfold remove_contributor. destruct H as [H|H].
    + rewrite (get_orm_none _ _ H). reflexivity.
    + destruct (get_orm_project (swork s) pid); [rewrite H; reflexivity|reflexivity].
  - intros H'. unfold get_contributors. rewrite (get_orm_none _ _ H'). reflexivity.
Qed.

Lemma contributor_errors_roll_back_witness :
  ((forall r, In r (projetos (Fixtures.db_of_rows [Fixtures.row 1 1])) -> p_id r <> 5) \/
   Z_in 7 [7] = false) /\
  add_contributor [7] 5 7 {| sdb := Fixtures.empty_db;
                             swork := Fixtures.db_of_rows [Fixtures.row 1 1] |} =
    (Raise RepositoryError, rollback {| sdb := Fixtures.empty_db;
                                        swork := Fixtures.db_of_rows [Fixtures.row 1 1] |}).
Proof.
  assert (H : (forall r, In r (projetos (Fixtures.db_of_rows [Fixtures.row 1 1])) -> p_id r <> 5)
              \/ Z_in 7 [7] = false)
    by (left; intros r [<-|[]]; simpl; lia).
  split; [exact H|].
  exact (proj1 (contributor_errors_roll_back [7] 5 7
                  {| sdb := Fixtures.empty_db;
                     swork := Fixtures.db_of_rows [Fixtures.row 1 1] |} H)).
Defined.

Lemma existsb_false_all {A} (f : A -> bool) l :
  existsb f l = false -> forall x, In x l -> f x = false.
Proof.
  induction l as [|a t IH]; intros H x Hx; [destruct Hx|].
  simpl in H. apply orb_false_iff in H. destruct H as [Ha Ht].
  destruct Hx as [<-|Hx]; [exact Ha|exact (IH Ht x Hx)].
Qed.

(** X16: for an existing project and user that is not yet a
    contributor, [remove_contributor] changes nothing and commits nothing,
    and [add_contributor] followed by [remove_contributor] succeeds and
    leaves the committed association table exactly as it was. *)
Theorem remove_after_add (usuarios : list Z) (pid uid : Z) (s : Sess) :
  (exists r, In r (projetos (swork s)) /\ p_id r = pid) ->
  Z_in uid usuarios = true ->
  is_contributor (swork s) pid uid = false ->
  remove_contributor usuarios pid uid s = (Ok tt, s) /\
  fst (remove_contributor usuarios pid uid (snd (add_contributor usuarios pid uid s))) = Ok tt /\
  project_contributors
    (swork (snd (remove_contributor usuarios pid uid (snd (add_contributor usuarios pid uid s)))))
    = project_contributors (swork s) /\
  sdb (snd (remove_contributor usuarios pid uid (snd (add_contributor usuarios pid uid s)))) =
  swork (snd (remove_contributor usuarios pid uid (snd (add_contributor usuarios pid uid s)))).
Proof.
  intros [r [Hin Hi]] Hu Ec. destruct (get_orm_some _ _ _ Hin Hi) as [r0 Hg].
  split; [unfold remove_contributor; rewrite Hg, Hu, Ec; reflexivity|].
  assert (Ha : add_contributor usuarios pid uid s =
              (Ok tt, commit {| sdb := sdb s;
                                swork := with_contributors (swork s)
                                  (project_contributors (swork s) ++ [mkContributor pid uid]) |}))
    by (unfold add_contributor; rewrite Hg, Hu, Ec; reflexivity).
  rewrite Ha. simpl snd.
  set (s1 := commit {| sdb := sdb s;
                       swork := with_contributors (swork s)
                         (project_contributors (swork s) ++ [mkContributor pid uid]) |}).
  assert (Hg1 : get_orm_project (swork s1) pid = Some r0) by exact Hg.
  assert (Hc1 : is_contributor (swork s1) pid uid = true)
    by exact (is_contributor_appended (swork s) pid uid).
  unfold remove_contributor. rewrite Hg1, Hu, Hc1. simpl.
  split; [reflexivity|]. split; [|reflexivity].
  unfold s1. simpl. rewrite filter_app. simpl. rewrite !Z.eqb_refl. simpl. rewrite app_nil_r.
  apply DeleteFacts.filter_all_true. intros c Hc.
  unfold is_contributor in Ec. rewrite (existsb_false_all _ _ Ec c Hc). reflexivity.
Qed.

Lemma remove_after_add_witness :
  (exists r, In r (projetos Fixtures.two_projects_db) /\ p_id r = 1) /\
  Z_in 8 [7; 8] = true /\
  is_contributor Fixtures.two_projects_db 1 8 = false /\
  project_contributors
    (swork (snd (remove_contributor [7; 8] 1 8 (snd (add_contributor [7; 8] 1 8
       {| sdb := Fixtures.two_projects_db; swork := Fixtures.two_projects_db |})))))
  = project_contributors Fixtures.two_projects_db.
Proof.
  assert (Hr : exists r, In r (projetos Fixtures.two_projects_db) /\ p_id r = 1)
    by (exists (Fixtures.row 1 1); split; [left; reflexivity|reflexivity]).
  split; [exact Hr|]. split; [reflexivity|]. split; [reflexivity|].
  exact (proj1 (proj2 (proj2 (remove_after_add [7; 8] 1 8
           {| sdb := Fixtures.two_projects_db; swork := Fixtures.two_projects_db |}
           Hr eq_refl eq_refl)))).
Defined.

End RepoExtra.

Module ServiceExtra.
Import ProjectEntity Schema Repo Session Service ProofDefs RepoExtra.

Lemma in_order_by_id x l : In x (order_by_id l) -> In x l.
Proof. intros H. exact (Permutation_in x (CursorFacts.order_by_id_perm l) H). Qed.

(** X17: a page of [list_projects_cursor] holds at most
    [min(limit, 100)] projects, all live and all with an id above the
    cursor given; when a next cursor [c] is returned, the page is not
    empty and [c] is the id of its last project. *)
Theorem list_projects_cursor_page (db : DB) (cursor : option Z) (limit : nat)
    (st : option ProjectStatus) (client : option Z) :
  (List.length (fst (list_projects_cursor db cursor limit st client)) <= Nat.min limit 100)%nat /\
  (forall c, snd (list_projects_cursor db cursor limit st client) = Some c ->
     exists P0 x, fst (list_projects_cursor db cursor limit st client) = P0 ++ [x] /\
                  id x = Some c) /\
  (forall p, In p (fst (list_projects_cursor db cursor limit st client)) ->
     deleted_at p = None /\
     exists i, id p = Some i /\ (forall c, cursor = Some c -> c < i)).
Proof.
  unfold list_projects_cursor, get_with_cursor.
  set (lim := Nat.min limit 100).
  set (q := filter (client_filter client) (filter (status_filter st)
              (filter (cursor_filter cursor) (filter live (projetos db))))).
  set (orm := firstn (lim + 1) (order_by_id q)).
  assert (Hrow : forall r, In r orm ->
            p_deleted_at r = None /\ forall c, cursor = Some c -> c < p_id r).
  { intros r Hr. apply in_firstn, in_order_by_id in Hr. unfold q in Hr.
    apply filter_In in Hr. destruct Hr as [Hr _].
    apply filter_In in Hr. destruct Hr as [Hr _].
    apply filter_In in Hr. destruct Hr as [Hr Hc].
    apply filter_In in Hr. destruct Hr as [_ Hl].
    split; [apply live_none; exact Hl|].
    intros c ->. simpl in Hc. apply Z.ltb_lt; exact Hc. }
  assert (Hmem : forall l, (forall r, In r l -> In r orm) ->
            forall p, In p (map _to_domain l) ->
            deleted_at p = None /\ exists i, id p = Some i /\ (forall c, cursor = Some c -> c < i)).
  { intros l Hl p Hp. apply in_map_iff in Hp. destruct Hp as [r [<- Hr]].
    destruct (Hrow r (Hl r Hr)) as [Hd Hc]. simpl.
    split; [exact Hd|]. exists (p_id r). split; [reflexivity|exact Hc]. }
  destruct (Nat.ltb lim (List.length orm)) eqn:E.
  - split; [|split].
    + simpl. rewrite length_map. apply firstn_le_length.
    + intros c. simpl. destruct (rev (firstn lim orm)) as [|last rest] eqn:R; [discriminate|].
      intros Hc. injection Hc as <-.
      assert (Hf : firstn lim orm = rev rest ++ [last])
        by (rewrite <- (rev_involutive (firstn lim orm)), R; reflexivity).
      exists (map _to_domain (rev rest)), (_to_domain last).
      rewrite Hf, map_app. split; reflexivity.
    + apply Hmem. intros r Hr. exact (in_firstn _ _ _ Hr).
  - split; [|split].
    + simpl. rewrite length_map. apply Nat.ltb_ge in E. exact E.
    + intros c Hc; discriminate.
    + apply Hmem. intros r Hr; exact Hr.
Qed.



Lemma status_counts_sum (l : list ProjectRow) :
  fold_right Nat.add 0%nat
    (map (fun s => List.length (filter live (filter (fun r => status_eqb (p_status r) s) l)))
         all_statuses)
  = List.length (filter live l).
Proof.
  induction l as [|a t IH]; [reflexivity|]. simpl in *.
  destruct (p_status a); simpl; destruct (live a); simpl; lia.
Qed.

(** X19: in [get_project_statistics] the five per-status entries are the
    [count_by_status] values and add up to the number of live projects;
    ["total_active"] is the [EM_ANDAMENTO] count capped at 1000 (so it
    differs from the ["em_andamento"] entry beyond 1000 active
    projects); ["total_overdue"] never exceeds the ["em_andamento"]
    entry. *)
Theorem project_statistics_consistent (db : DB) (today : Z) :
  map (fun s => dict_get (get_project_statistics db today) (status_value s)) all_statuses
    = map (fun s => Some (count_by_status db s)) all_statuses /\
  fold_right Nat.add 0%nat (map (count_by_status db) all_statuses)
    = List.length (filter live (projetos db)) /\
  dict_get (get_project_statistics db today) "total_active"
    = Some (Nat.min 1000 (count_by_status db EM_ANDAMENTO)) /\
  (exists n, dict_get (get_project_statistics db today) "total_overdue" = Some n /\
             (n <= count_by_status db EM_ANDAMENTO)%nat).
Proof.
  split; [reflexivity|]. split; [|split].
  - exact (status_counts_sum (projetos db)).
  - cbn -[get_active_projects count_by_status]. rewrite active_length. reflexivity.
  - eexists. split; [cbn -[get_overdue_projects]; reflexivity|].
    unfold get_overdue_projects, count_by_status. rewrite length_map, filter_filter_andb.
    apply filter_length_mono. intros r Hr. unfold overdue_filter in Hr.
    apply andb_true_iff in Hr. destruct Hr as [Hr Hl].
    apply andb_true_iff in Hr. destruct Hr as [Hs _]. rewrite Hs, Hl. reflexivity.
Qed.

End ServiceExtra.
